(** * KallistiOS GD-ROM driver: command execution core

    Shallow embedding of [kernel/arch/dreamcast/hardware/cdrom.c] together
    with the declarations of [dc/cdrom.h] and [dc/syscalls.h] it relies on.

    The driver talks to the BIOS through syscalls, to the scheduler through
    [thd_pass], to the clock through [timer_ms_gettime64] and to the G1 bus
    mutex.  A driver routine is embedded as a tree of such calls ([prog]); the
    tree is then given a sequential meaning ([run], one caller against a
    scripted firmware) and a concurrent one ([cstep], two callers sharing the
    mutex). *)

From Stdlib Require Import ZArith List Lia Bool.
Import ListNotations.
Open Scope Z_scope.

(** ** Constants of [dc/cdrom.h] and [dc/syscalls.h] *)

Definition CD_CMD_RETRY_MAX : nat := 10.

(* cd_cmd_chk_t *)
Definition CD_CMD_FAILED     : Z := -1.
Definition CD_CMD_NOT_FOUND  : Z := 0.
Definition CD_CMD_PROCESSING : Z := 1.
Definition CD_CMD_COMPLETED  : Z := 2.
Definition CD_CMD_STREAMING  : Z := 3.
Definition CD_CMD_BUSY       : Z := 4.

(* cd_cmd_ret_t *)
Definition CD_ERR_OK        : Z := 0.
Definition CD_ERR_NO_DISC   : Z := 1.
Definition CD_ERR_DISC_CHG  : Z := 2.
Definition CD_ERR_SYS       : Z := 3.
Definition CD_ERR_ABORTED   : Z := 4.
Definition CD_ERR_NO_ACTIVE : Z := 5.
Definition CD_ERR_TIMEOUT   : Z := 6.

(* cd_cmd_code_t, the codes this file submits *)
Definition CMD_PLAY  : Z := 20.
Definition CMD_PLAY2 : Z := 21.
Definition CMD_INIT  : Z := 24.

(* cd_disc_types_t *)
Definition CD_CDDA     : Z := 0x00.
Definition CD_CDROM    : Z := 0x10.
Definition CD_CDROM_XA : Z := 0x20.
Definition CD_CDI      : Z := 0x30.
Definition CD_GDROM    : Z := 0x80.
Definition CD_FAIL     : Z := 0xf0.

(* cd_read_sec_part_t *)
Definition CD_READ_WHOLE_SECTOR : Z := 0x1000.
Definition CD_READ_DATA_AREA    : Z := 0x2000.
Definition CD_READ_DEFAULT      : Z := -1.

(* cd_track_type_t *)
Definition CD_TRACK_TYPE_UNKNOWN     : Z := 0x0e00.
Definition CD_TRACK_TYPE_MODE2_NONXA : Z := 0x0c00.
Definition CD_TRACK_TYPE_MODE2_FORM2 : Z := 0x0a00.
Definition CD_TRACK_TYPE_MODE2_FORM1 : Z := 0x0800.
Definition CD_TRACK_TYPE_MODE2       : Z := 0x0600.
Definition CD_TRACK_TYPE_MODE1       : Z := 0x0400.
Definition CD_TRACK_TYPE_CDDA        : Z := 0x0200.
Definition CD_TRACK_TYPE_ANY         : Z := 0x0000.
Definition CD_TRACK_TYPE_DEFAULT     : Z := -1.

(* cd_cdda_mode_t *)
Definition CDDA_TRACKS  : Z := 0.
Definition CDDA_SECTORS : Z := 1.

(** ** Structures *)

(* cd_cmd_chk_status_t *)
Record cd_cmd_chk_status := mk_chk_status {
  err1 : Z;
  err2 : Z;
  size : Z;
  ata  : Z
}.

(* cd_check_drive_params_t *)
Record cd_check_drive_params := mk_check_drive {
  status    : Z;
  disc_type : Z
}.

(* cd_sec_mode_params_t *)
Record cd_sec_mode_params := mk_sec_mode {
  RW          : Z;
  sector_part : Z;
  track_type  : Z;
  sector_size : Z
}.

(* cd_cmd_play_params_t; the C field names are start, end, repeat *)
Record cd_cmd_play_params := mk_play {
  play_start  : Z;
  play_end    : Z;
  play_repeat : Z
}.

(* cd_toc_t *)
Record cd_toc := mk_toc {
  entry          : list Z;
  first          : Z;
  last           : Z;
  leadout_sector : Z
}.

(* What the [void *param] of a command points to. *)
Inductive cmd_param :=
| PNull
| PPlay (p : cd_cmd_play_params)
| PWords (ws : list Z).

(** ** Calls that leave the driver *)

Inductive op :=
| MutexLock
| MutexLockIrqsafe
| MutexUnlock
| SendCommand (cmd : Z) (param : cmd_param)
| ExecServer
| ThdPass
| CheckCommand (id : Z) (st : cd_cmd_chk_status)
| AbortCommand (id : Z)
| TimerMsGettime64
| CheckDrive (params : cd_check_drive_params)
| SectorMode (params : cd_sec_mode_params)
| Dbglog.

(* What a call hands back.  [syscall_gdrom_check_command] and
   [syscall_gdrom_check_drive] are declared in dc/syscalls.h with their
   structure argument passed BY VALUE: the second component below is the
   callee's copy as the firmware filled it, which the C caller cannot see. *)
Definition resp (o : op) : Type :=
  match o with
  | MutexLockIrqsafe => Z
  | SendCommand _ _ => Z
  | CheckCommand _ _ => (Z * cd_cmd_chk_status)%type
  | AbortCommand _ => Z
  | TimerMsGettime64 => Z
  | CheckDrive _ => (Z * cd_check_drive_params)%type
  | SectorMode _ => Z
  | _ => unit
  end.

(** ** Programs *)

Inductive prog (A : Type) : Type :=
| Ret (a : A)
| Vis (o : op) (k : resp o -> prog A)
| OutOfFuel.

Arguments Ret {A} a.
Arguments Vis {A} o k.
Arguments OutOfFuel {A}.

Fixpoint bind {A B} (p : prog A) (f : A -> prog B) : prog B :=
  match p with
  | Ret a => f a
  | Vis o k => Vis o (fun r => bind (k r) f)
  | OutOfFuel => OutOfFuel
  end.

Definition call (o : op) : prog (resp o) := Vis o (fun r => Ret r).

Declare Scope prog_scope.
Delimit Scope prog_scope with prog.
Notation "x <- c1 ;; c2" := (bind c1 (fun x => c2))
  (at level 61, c1 at next level, right associativity) : prog_scope.
Notation "' pat <- c1 ;; c2" := (bind c1 (fun x => match x with pat => c2 end))
  (at level 61, pat pattern, c1 at next level, right associativity) : prog_scope.
Notation "c1 ;; c2" := (bind c1 (fun _ => c2))
  (at level 61, right associativity) : prog_scope.
Open Scope prog_scope.

(** Modelled from the spec: [mutex_lock_scoped] of kos/mutex.h, which is not
    part of the sources at hand.  Spec 4.1: the blocking acquire holds the
    gate until released, and release occurs on every exit path of the guarded
    region, early returns included. *)
Definition mutex_lock_scoped {A} (body : prog A) : prog A :=
  call MutexLock ;;
  r <- body ;;
  call MutexUnlock ;;
  Ret r.

(** ** cdrom_exec_cmd_timed *)

Definition uint64_sub (a b : Z) : Z := (a - b) mod 2 ^ 64.

Definition zero_status : cd_cmd_chk_status := mk_chk_status 0 0 0 0.

(* Lines 75-82: for(i = 0; i < CD_CMD_RETRY_MAX; ++i).  [n] counts the
   iterations left, [id] is the value the variable holds so far. *)
Fixpoint submit_loop (n : nat) (cmd : Z) (param : cmd_param) (id : Z) : prog Z :=
  match n with
  | O => Ret id
  | S n' =>
      id <- call (SendCommand cmd param) ;;
      if negb (id =? 0) then Ret id
      else
        call ExecServer ;;
        call ThdPass ;;
        submit_loop n' cmd param id
  end.

(* Lines 91-107: do { ... } while(1).  The loop is left either by [break]
   with the last check result ([inl n]) or by the [return] of the timeout
   branch ([inr ret]). *)
Fixpoint poll_loop (fuel : nat) (id : Z) (st : cd_cmd_chk_status)
         (timeout begin : Z) : prog (Z + Z) :=
  match fuel with
  | O => OutOfFuel
  | S fuel' =>
      call ExecServer ;;
      '(n, _) <- call (CheckCommand id st) ;;
      if negb (n =? CD_CMD_PROCESSING) && negb (n =? CD_CMD_BUSY) then
        Ret (inl n)
      else if negb (timeout =? 0) then
        now <- call TimerMsGettime64 ;;
        if uint64_sub now begin >=? timeout then
          call (AbortCommand id) ;;
          call ExecServer ;;
          call Dbglog ;;
          Ret (inr CD_ERR_TIMEOUT)
        else
          call ThdPass ;;
          poll_loop fuel' id st timeout begin
      else
        call ThdPass ;;
        poll_loop fuel' id st timeout begin
  end.

(* Lines 109-124.  Every arm of the switch returns, so the test of
   status.err2 that follows it in the source is never reached. *)
Definition classify_result (n : Z) (st : cd_cmd_chk_status) : Z :=
  if (n =? CD_CMD_COMPLETED) || (n =? CD_CMD_STREAMING) then CD_ERR_OK
  else if n =? CD_CMD_NOT_FOUND then CD_ERR_NO_ACTIVE
  else if err1 st =? 2 then CD_ERR_NO_DISC
  else if err1 st =? 6 then CD_ERR_DISC_CHG
  else CD_ERR_SYS.

Definition cdrom_exec_cmd_timed (fuel : nat) (cmd : Z) (param : cmd_param)
           (timeout : Z) : prog Z :=
  let st := zero_status in
  mutex_lock_scoped (
    id <- submit_loop CD_CMD_RETRY_MAX cmd param 0 ;;
    if id <=? 0 then Ret CD_ERR_SYS
    else
      begin <- (if negb (timeout =? 0) then call TimerMsGettime64 else Ret 0) ;;
      r <- poll_loop fuel id st timeout begin ;;
      match r with
      | inr ret => Ret ret
      | inl n => Ret (classify_result n st)
      end).

Definition cdrom_exec_cmd (fuel : nat) (cmd : Z) (param : cmd_param) : prog Z :=
  cdrom_exec_cmd_timed fuel cmd param 0.

(** ** cdrom_get_status *)

(* Lines 139-147: do { rv = syscall_gdrom_check_drive(params); ... } while(1) *)
Fixpoint check_drive_loop (fuel : nat) (params : cd_check_drive_params) : prog Z :=
  match fuel with
  | O => OutOfFuel
  | S fuel' =>
      '(rv, _) <- call (CheckDrive params) ;;
      if negb (rv =? CD_CMD_BUSY) then Ret rv
      else
        call ThdPass ;;
        check_drive_loop fuel' params
  end.

(* An [int *] out-parameter: [None] is the NULL pointer, [Some v] a cell that
   holds [v]. *)
Definition store (cell : option Z) (v : Z) : option Z :=
  match cell with
  | None => None
  | Some _ => Some v
  end.

(* The result carries the return value and the cells behind the two
   pointers as the call leaves them. *)
Definition cdrom_get_status (fuel : nat) (status_ptr disc_type_ptr : option Z)
  : prog (Z * option Z * option Z) :=
  let params := mk_check_drive 0 0 in
  lk <- call MutexLockIrqsafe ;;
  if negb (lk =? 0) then Ret (-1, status_ptr, disc_type_ptr)
  else
    rv <- check_drive_loop fuel params ;;
    call MutexUnlock ;;
    if rv >=? 0 then
      Ret (rv, store status_ptr (status params),
               store disc_type_ptr (disc_type params))
    else
      Ret (rv, store status_ptr (-1), store disc_type_ptr (-1)).

(** ** cdrom_change_datatype *)

Definition cdrom_change_datatype (sector_part track_type sector_size : Z) : prog Z :=
  let check_params := mk_check_drive 0 0 in
  mutex_lock_scoped (
    '(sector_part, track_type, sector_size) <-
      (if sector_size =? 2352 then
         let track_type :=
           if track_type =? CD_TRACK_TYPE_DEFAULT then CD_TRACK_TYPE_ANY
           else track_type in
         let sector_part :=
           if sector_part =? CD_READ_DEFAULT then CD_READ_WHOLE_SECTOR
           else sector_part in
         Ret (sector_part, track_type, sector_size)
       else
         track_type <-
           (if track_type =? CD_TRACK_TYPE_DEFAULT then
              call (CheckDrive check_params) ;;
              if disc_type check_params =? CD_CDROM_XA
              then Ret CD_TRACK_TYPE_MODE2_FORM1
              else Ret CD_TRACK_TYPE_MODE1
            else Ret track_type) ;;
         let sector_part :=
           if sector_part =? CD_READ_DEFAULT then CD_READ_DATA_AREA
           else sector_part in
         let sector_size :=
           if sector_size =? -1 then 2048 else sector_size in
         Ret (sector_part, track_type, sector_size)) ;;
    call (SectorMode (mk_sec_mode 0 sector_part track_type sector_size))).

(** ** cdrom_reinit_ex *)

(* cd_cmd_ret_t has no negative enumerator, so the compiler gives it an
   unsigned 32-bit representation.  The code crosses between it and int
   twice: the result of cdrom_exec_cmd_timed is assigned to [int r], and
   both returns of cdrom_reinit_ex hand an int back as a cd_cmd_ret_t. *)
Definition to_cd_cmd_ret (v : Z) : Z := v mod 2 ^ 32.

Definition int_of_cd_cmd_ret (v : Z) : Z :=
  if v <? 2 ^ 31 then v else v - 2 ^ 32.

(* Lines 221-223: do { r = cdrom_exec_cmd_timed(CMD_INIT, NULL, 10000); }
   while(r == CD_ERR_DISC_CHG);  [fuel] bounds the disc-change retries,
   [pfuel] the polls of one cycle. *)
Fixpoint reinit_loop (fuel pfuel : nat) : prog Z :=
  match fuel with
  | O => OutOfFuel
  | S fuel' =>
      r <- cdrom_exec_cmd_timed pfuel CMD_INIT PNull 10000 ;;
      let r := int_of_cd_cmd_ret r in
      if r =? CD_ERR_DISC_CHG then reinit_loop fuel' pfuel else Ret r
  end.

Definition cdrom_reinit_ex (fuel pfuel : nat)
           (sector_part track_type sector_size : Z) : prog Z :=
  r <- reinit_loop fuel pfuel ;;
  if (r =? CD_ERR_NO_DISC) || (r =? CD_ERR_SYS) || (r =? CD_ERR_TIMEOUT)
  then Ret (to_cd_cmd_ret r)
  else
    v <- cdrom_change_datatype sector_part track_type sector_size ;;
    Ret (to_cd_cmd_ret v).

Definition cdrom_reinit (fuel pfuel : nat) : prog Z :=
  cdrom_reinit_ex fuel pfuel CD_READ_DEFAULT CD_TRACK_TYPE_DEFAULT (-1).

(** ** cdrom_locate_data_track *)

Definition TOC_LBA (n : Z) : Z := Z.land n 0x00ffffff.
Definition TOC_ADR (n : Z) : Z := Z.shiftr (Z.land n 0x0f000000) 24.
Definition TOC_CTRL (n : Z) : Z := Z.shiftr (Z.land n 0xf0000000) 28.
Definition TOC_TRACK (n : Z) : Z := Z.shiftr (Z.land n 0x00ff0000) 16.

(* toc->entry[i] *)
Definition entry_at (toc : cd_toc) (i : Z) : Z :=
  nth (Z.to_nat i) (entry toc) 0.

Definition uint32_dec (i : Z) : Z := (i - 1) mod 2 ^ 32.

(* Lines 295-300: for(i = last; i >= first; i--), on uint32_t.  [None]
   means that [fuel] iterations did not end the loop. *)
Fixpoint locate_loop (fuel : nat) (toc : cd_toc) (first i : Z) : option Z :=
  if i >=? first then
    if TOC_CTRL (entry_at toc (uint32_dec i)) =? 4 then
      Some (TOC_LBA (entry_at toc (uint32_dec i)))
    else
      match fuel with
      | O => None
      | S fuel' => locate_loop fuel' toc first (uint32_dec i)
      end
  else Some 0.

Definition cdrom_locate_data_track (fuel : nat) (toc : cd_toc) : option Z :=
  let first := TOC_TRACK (first toc) in
  let last := TOC_TRACK (last toc) in
  if (first <? 1) || (last >? 99) || (first >? last) then Some 0
  else locate_loop fuel toc first last.

(** ** cdrom_cdda_play *)

Definition cdrom_cdda_play (fuel : nat) (start end_ repeat_ mode : Z) : prog Z :=
  let repeat_ := if repeat_ >? 15 then 15 else repeat_ in
  let params := mk_play start end_ repeat_ in
  if mode =? CDDA_TRACKS then cdrom_exec_cmd fuel CMD_PLAY (PPlay params)
  else if mode =? CDDA_SECTORS then cdrom_exec_cmd fuel CMD_PLAY2 (PPlay params)
  else Ret CD_ERR_SYS.

(** ** One caller against a scripted firmware *)

(* The answers of the world outside the driver, each indexed by how many
   calls of that kind came before. *)
Record firmware := mk_firmware {
  fw_send        : nat -> Z;
  fw_check       : nat -> Z * cd_cmd_chk_status;
  fw_abort       : nat -> Z;
  fw_clock       : nat -> Z;
  fw_check_drive : nat -> Z * cd_check_drive_params;
  fw_sector_mode : nat -> Z
}.

(* [gate_held] tells whether [_g1_ata_mutex] is taken; the counters say how
   many answers of each kind the firmware has given; [trace] lists the calls
   made so far, oldest first. *)
Record world := mk_world {
  gate_held : bool;
  n_send    : nat;
  n_check   : nat;
  n_abort   : nat;
  n_clock   : nat;
  n_drive   : nat;
  n_mode    : nat;
  trace     : list op
}.

Definition log (o : op) (w : world) : world :=
  mk_world (gate_held w) (n_send w) (n_check w) (n_abort w) (n_clock w)
           (n_drive w) (n_mode w) (trace w ++ [o]).

Definition set_gate (b : bool) (w : world) : world :=
  mk_world b (n_send w) (n_check w) (n_abort w) (n_clock w)
           (n_drive w) (n_mode w) (trace w).

Definition tick_send (w : world) : world :=
  mk_world (gate_held w) (S (n_send w)) (n_check w) (n_abort w) (n_clock w)
           (n_drive w) (n_mode w) (trace w).

Definition tick_check (w : world) : world :=
  mk_world (gate_held w) (n_send w) (S (n_check w)) (n_abort w) (n_clock w)
           (n_drive w) (n_mode w) (trace w).

Definition tick_abort (w : world) : world :=
  mk_world (gate_held w) (n_send w) (n_check w) (S (n_abort w)) (n_clock w)
           (n_drive w) (n_mode w) (trace w).

Definition tick_clock (w : world) : world :=
  mk_world (gate_held w) (n_send w) (n_check w) (n_abort w) (S (n_clock w))
           (n_drive w) (n_mode w) (trace w).

Definition tick_drive (w : world) : world :=
  mk_world (gate_held w) (n_send w) (n_check w) (n_abort w) (n_clock w)
           (S (n_drive w)) (n_mode w) (trace w).

Definition tick_mode (w : world) : world :=
  mk_world (gate_held w) (n_send w) (n_check w) (n_abort w) (n_clock w)
           (n_drive w) (S (n_mode w)) (trace w).

(** Modelled from the spec: the mutex of kos/mutex.h, which is not part of
    the sources at hand.  Spec 4.1: [acquire_blocking] waits until the lock
    is free ([None] below: the caller does not get past the call while the
    gate is held); [try_acquire_nonblocking], the [mutex_lock_irqsafe] of
    [cdrom_get_status], returns at once with a failure (non-zero, here -1)
    when the gate is held and with 0 once it has taken it. *)
Definition respond (fw : firmware) (w : world) (o : op) : option (resp o * world) :=
  match o return option (resp o * world) with
  | MutexLock =>
      if gate_held w then None else Some (tt, set_gate true (log MutexLock w))
  | MutexLockIrqsafe =>
      if gate_held w then Some (-1, log MutexLockIrqsafe w)
      else Some (0, set_gate true (log MutexLockIrqsafe w))
  | MutexUnlock => Some (tt, set_gate false (log MutexUnlock w))
  | SendCommand c p =>
      Some (fw_send fw (n_send w), tick_send (log (SendCommand c p) w))
  | ExecServer => Some (tt, log ExecServer w)
  | ThdPass => Some (tt, log ThdPass w)
  | CheckCommand i s =>
      Some (fw_check fw (n_check w), tick_check (log (CheckCommand i s) w))
  | AbortCommand i =>
      Some (fw_abort fw (n_abort w), tick_abort (log (AbortCommand i) w))
  | TimerMsGettime64 =>
      Some (fw_clock fw (n_clock w), tick_clock (log TimerMsGettime64 w))
  | CheckDrive p =>
      Some (fw_check_drive fw (n_drive w), tick_drive (log (CheckDrive p) w))
  | SectorMode p =>
      Some (fw_sector_mode fw (n_mode w), tick_mode (log (SectorMode p) w))
  | Dbglog => Some (tt, log Dbglog w)
  end.

Inductive outcome (A : Type) : Type :=
| Done (a : A)
| Fuel
| Blocked.

Arguments Done {A} a.
Arguments Fuel {A}.
Arguments Blocked {A}.

Fixpoint run {A} (fw : firmware) (p : prog A) (w : world) : outcome A * world :=
  match p with
  | Ret a => (Done a, w)
  | OutOfFuel => (Fuel, w)
  | Vis o k =>
      match respond fw w o with
      | Some (r, w') => run fw (k r) w'
      | None => (Blocked, w)
      end
  end.

(* A world in which nothing has happened yet and the gate is free. *)
Definition world0 : world := mk_world false 0 0 0 0 0 0 [].

(* The world [w] after [s], [c], ... further calls of each kind that logged
   [evs], with the gate left in state [g]. *)
Definition bump (w : world) (g : bool) (s c a t d m : nat) (evs : list op) : world :=
  mk_world g (n_send w + s) (n_check w + c) (n_abort w + a) (n_clock w + t)
           (n_drive w + d) (n_mode w + m) (trace w ++ evs).

Definition is_send (o : op) : bool :=
  match o with SendCommand _ _ => true | _ => false end.

Definition is_check (o : op) : bool :=
  match o with CheckCommand _ _ => true | _ => false end.

Definition is_abort (o : op) : bool :=
  match o with AbortCommand _ => true | _ => false end.

Definition count (f : op -> bool) (evs : list op) : nat :=
  length (filter f evs).

(* Closed forms of what the submission loop does against a firmware whose
   next send answer has index [base]. *)
Fixpoint submit_trace (fw : firmware) (base n : nat) (cmd : Z) (param : cmd_param)
  : list op :=
  match n with
  | O => []
  | S n' =>
      SendCommand cmd param ::
      (if fw_send fw base =? 0
       then ExecServer :: ThdPass :: submit_trace fw (S base) n' cmd param
       else [])
  end.

Fixpoint submit_id (fw : firmware) (base n : nat) (id : Z) : Z :=
  match n with
  | O => id
  | S n' =>
      if fw_send fw base =? 0 then submit_id fw (S base) n' 0
      else fw_send fw base
  end.

(* [j] failed attempts, each followed by a tick and a yield. *)
Fixpoint failed_attempts (j : nat) (cmd : Z) (param : cmd_param) : list op :=
  match j with
  | O => []
  | S j' => SendCommand cmd param :: ExecServer :: ThdPass
            :: failed_attempts j' cmd param
  end.

(* [j] rounds of the poll loop that went round again. *)
Fixpoint poll_rounds (j : nat) (id : Z) (st : cd_cmd_chk_status) (timed : bool)
  : list op :=
  match j with
  | O => []
  | S j' =>
      ExecServer :: CheckCommand id st ::
      (if timed then [TimerMsGettime64; ThdPass] else [ThdPass])
      ++ poll_rounds j' id st timed
  end.

(* The calls of the round in which the budget is found exceeded. *)
Definition timeout_round (id : Z) (st : cd_cmd_chk_status) : list op :=
  [ExecServer; CheckCommand id st; TimerMsGettime64;
   AbortCommand id; ExecServer; Dbglog].

Definition nonterminal (n : Z) : Prop :=
  n = CD_CMD_PROCESSING \/ n = CD_CMD_BUSY.

(* The world once the gate is taken and the submission loop is through. *)
Definition after_submit (fw : firmware) (w : world) (cmd : Z) (param : cmd_param)
  : world :=
  bump w true
       (count is_send (submit_trace fw (n_send w) CD_CMD_RETRY_MAX cmd param))
       0 0 0 0 0
       (MutexLock :: submit_trace fw (n_send w) CD_CMD_RETRY_MAX cmd param).

(* Leaving the scope of [mutex_lock_scoped]. *)
Definition leave (w : world) : world := set_gate false (log MutexUnlock w).

(** ** Two callers sharing the gate *)

Inductive tid := T1 | T2.

Definition tid_eqb (a b : tid) : bool :=
  match a, b with
  | T1, T1 | T2, T2 => true
  | _, _ => false
  end.

Definition other (t : tid) : tid :=
  match t with T1 => T2 | T2 => T1 end.

(* Everything but the three mutex calls. *)
Definition is_drive_op (o : op) : bool :=
  match o with
  | MutexLock | MutexLockIrqsafe | MutexUnlock => false
  | _ => true
  end.

(** Modelled from the spec: the mutex of kos/mutex.h under two callers.
    [gate_allows h t o r h']: with the gate held by [h], caller [t] may
    perform [o], gets the answer [r] and leaves the gate held by [h'].  The
    blocking acquire is enabled only while the gate is free; the non-blocking
    one always returns, with 0 exactly when it took the gate; only the holder
    releases.  Calls to the firmware, the clock and the scheduler are always
    enabled and may answer anything. *)
Definition gate_allows (h : option tid) (t : tid) (o : op) (r : resp o)
           (h' : option tid) : Prop :=
  match o return resp o -> Prop with
  | MutexLock => fun _ => h = None /\ h' = Some t
  | MutexLockIrqsafe => fun r =>
      (h = None /\ r = 0 /\ h' = Some t) \/ (h <> None /\ r <> 0 /\ h' = h)
  | MutexUnlock => fun _ => h = Some t /\ h' = None
  | _ => fun _ => h' = h
  end r.

Record conf (A : Type) := mk_conf {
  holder    : option tid;
  thread_of : tid -> prog A
}.

Arguments mk_conf {A} holder thread_of.
Arguments holder {A} c.
Arguments thread_of {A} c t.

Definition set_thread {A} (ths : tid -> prog A) (t : tid) (p : prog A)
  : tid -> prog A :=
  fun t' => if tid_eqb t' t then p else ths t'.

Definition two_callers {A} (p1 p2 : prog A) : tid -> prog A :=
  fun t => match t with T1 => p1 | T2 => p2 end.

(* One call of one caller; the label records who called what. *)
Inductive cstep {A} : conf A -> tid * op -> conf A -> Prop :=
| cstep_call h h' ths t o k r :
    ths t = Vis o k ->
    gate_allows h t o r h' ->
    cstep (mk_conf h ths) (t, o) (mk_conf h' (set_thread ths t (k r))).

Inductive csteps {A} : conf A -> list (tid * op) -> conf A -> Prop :=
| csteps_nil c : csteps c [] c
| csteps_cons c e c1 l c2 :
    cstep c e c1 -> csteps c1 l c2 -> csteps c (e :: l) c2.

(* Whether caller [t] is inside a cycle after the history [l]: it has
   taken the gate with [mutex_lock_scoped] and not released it yet. *)
Definition gate_event (t : tid) (b : bool) (e : tid * op) : bool :=
  if tid_eqb (fst e) t then
    match snd e with
    | MutexLock => true
    | MutexUnlock => false
    | _ => b
    end
  else b.

Definition in_cycle (t : tid) (l : list (tid * op)) : bool :=
  fold_left (gate_event t) l false.

(* Shapes of a caller's remaining program: it makes no mutex call
   ([lock_free]); it has returned; it holds the gate and every path of it
   makes calls to the drive until it releases the gate and returns
   ([in_section]); it is about to take the gate for such a path
   ([at_entry]). *)
Fixpoint lock_free {A} (p : prog A) : Prop :=
  match p with
  | Vis o k => is_drive_op o = true /\ forall r, lock_free (k r)
  | _ => True
  end.

Definition returned {A} (p : prog A) : Prop :=
  match p with
  | Ret _ => True
  | _ => False
  end.

Fixpoint in_section {A} (p : prog A) : Prop :=
  match p with
  | Ret _ => False
  | OutOfFuel => True
  | Vis o k =>
      (o = MutexUnlock /\ forall r, returned (k r)) \/
      (is_drive_op o = true /\ forall r, in_section (k r))
  end.

Definition at_entry {A} (p : prog A) : Prop :=
  match p with
  | Vis o k => o = MutexLock /\ forall r, in_section (k r)
  | _ => False
  end.

(* What a caller's program may look like, inside and outside a cycle. *)
Definition phase_ok {A} (p : prog A) (inside : bool) : Prop :=
  if inside then in_section p else at_entry p \/ returned p.

Definition gate_invariant {A} (c : conf A) (l : list (tid * op)) : Prop :=
  (forall t, phase_ok (thread_of c t) (in_cycle t l)) /\
  (forall t, holder c = Some t <-> in_cycle t l = true).

(** ** Firmware scripts used in the examples *)

(* Accepts every command with handle 1; the first two checks report a
   failure with primary error 6, the later ones completion. *)
Definition fw_disc_changed_twice : firmware :=
  mk_firmware (fun _ => 1)
              (fun k => if (k <? 2)%nat then (CD_CMD_FAILED, mk_chk_status 6 0 0 0)
                        else (CD_CMD_COMPLETED, zero_status))
              (fun _ => 0)
              (fun k => Z.of_nat k)
              (fun _ => (0, mk_check_drive 1 CD_CDROM))
              (fun _ => 0).

(* Accepts every command; every check reports a failure with primary
   error 2 (no disc). *)
Definition fw_no_disc : firmware :=
  mk_firmware (fun _ => 1)
              (fun _ => (CD_CMD_FAILED, mk_chk_status 2 0 0 0))
              (fun _ => 0)
              (fun k => Z.of_nat k)
              (fun _ => (0, mk_check_drive 7 CD_CDDA))
              (fun _ => 0).

(* A drive that holds a CD-ROM XA disc. *)
Definition fw_xa : firmware :=
  mk_firmware (fun _ => 1)
              (fun _ => (CD_CMD_COMPLETED, zero_status))
              (fun _ => 0)
              (fun k => Z.of_nat k)
              (fun _ => (0, mk_check_drive 1 CD_CDROM_XA))
              (fun _ => 0).

(* Refuses a command three times, then accepts it with handle 7 and never
   finishes it; the clock advances 40 ms from one reading to the next. *)
Definition fw_stalled : firmware :=
  mk_firmware (fun k => if (k <? 3)%nat then 0 else 7)
              (fun _ => (CD_CMD_PROCESSING, zero_status))
              (fun _ => 0)
              (fun k => 1000 + 40 * Z.of_nat k)
              (fun _ => (0, mk_check_drive 1 CD_CDROM))
              (fun _ => 0).

(* Never accepts a command. *)
Definition fw_refusing : firmware :=
  mk_firmware (fun _ => 0)
              (fun _ => (CD_CMD_COMPLETED, zero_status))
              (fun _ => 0)
              (fun k => Z.of_nat k)
              (fun _ => (0, mk_check_drive 1 CD_CDROM))
              (fun _ => 0).

(** ** Closed form of the sector-format resolution *)

(* The structure [cdrom_change_datatype] builds for the set-mode syscall.
   The disc type the code compares is the one of its own zero-initialised
   [check_params] (CD_CDDA), so a default track type outside the 2352 case
   always comes out as mode 1. *)
Definition resolve_sector_mode (sector_part track_type sector_size : Z)
  : cd_sec_mode_params :=
  if sector_size =? 2352 then
    mk_sec_mode 0
      (if sector_part =? CD_READ_DEFAULT then CD_READ_WHOLE_SECTOR else sector_part)
      (if track_type =? CD_TRACK_TYPE_DEFAULT then CD_TRACK_TYPE_ANY else track_type)
      sector_size
  else
    mk_sec_mode 0
      (if sector_part =? CD_READ_DEFAULT then CD_READ_DATA_AREA else sector_part)
      (if track_type =? CD_TRACK_TYPE_DEFAULT then CD_TRACK_TYPE_MODE1 else track_type)
      (if sector_size =? -1 then 2048 else sector_size).

(* Whether the drive is asked for its state on the way. *)
Definition queries_drive (track_type sector_size : Z) : bool :=
  negb (sector_size =? 2352) && (track_type =? CD_TRACK_TYPE_DEFAULT).

Definition change_datatype_events (sector_part track_type sector_size : Z)
  : list op :=
  MutexLock ::
  (if queries_drive track_type sector_size
   then [CheckDrive (mk_check_drive 0 0)] else [])
  ++ [SectorMode (resolve_sector_mode sector_part track_type sector_size);
      MutexUnlock].

(* The table of contents of the example in section 8 of the specification:
   tracks 1 to 3 at disc addresses 100, 200 and 300, the first an audio track
   (control 0), the other two data tracks (control 4). *)
Definition toc_three_tracks : cd_toc :=
  mk_toc [0x01000064; 0x410000c8; 0x4100012c] 0x01010000 0x41030000 0x41000190.

(** ** The remaining entry points of cdrom.c *)

(* cd_cmd_code_t, the codes of the wrappers below *)
Definition CMD_PIOREAD : Z := 16.
Definition CMD_DMAREAD : Z := 17.
Definition CMD_GETTOC2 : Z := 19.
Definition CMD_PAUSE   : Z := 22.
Definition CMD_RELEASE : Z := 23.
Definition CMD_STOP    : Z := 33.
Definition CMD_GETSCD  : Z := 34.

(* cd_read_mode_t *)
Definition CDROM_READ_PIO : Z := 0.
Definition CDROM_READ_DMA : Z := 1.

(* The parameter blocks of these commands, word by word in the order of
   their struct; a pointer is the address it holds. *)

(* cd_cmd_toc_params_t { area; buffer } *)
Definition toc_params (area buffer : Z) : cmd_param := PWords [area; buffer].

(* cd_read_params_t { start_sec; num_sec; buffer; is_test } *)
Definition read_params (start_sec num_sec buffer is_test : Z) : cmd_param :=
  PWords [start_sec; num_sec; buffer; is_test].

(* cd_cmd_getscd_params_t { which; buflen; buffer } *)
Definition getscd_params (which buflen buffer : Z) : cmd_param :=
  PWords [which; buflen; buffer].

(* The conversion of a 32-bit size_t argument to the int parameter of
   cdrom_reinit_ex. *)
Definition int_of_size_t (s : Z) : Z :=
  if s <? 2 ^ 31 then s else s - 2 ^ 32.

Definition cdrom_set_sector_size (fuel pfuel : nat) (size : Z) : prog Z :=
  cdrom_reinit_ex fuel pfuel CD_READ_DEFAULT CD_TRACK_TYPE_DEFAULT
                  (int_of_size_t size).

Definition cdrom_read_toc (fuel : nat) (toc_buffer area : Z) : prog Z :=
  let params := toc_params area toc_buffer in
  cdrom_exec_cmd fuel CMD_GETTOC2 params.

Definition cdrom_read_sectors_ex (fuel : nat) (buffer sector cnt mode : Z)
  : prog Z :=
  let params := read_params sector cnt buffer 0 in
  if mode =? CDROM_READ_DMA then cdrom_exec_cmd fuel CMD_DMAREAD params
  else if mode =? CDROM_READ_PIO then cdrom_exec_cmd fuel CMD_PIOREAD params
  else Ret CD_ERR_SYS.

Definition cdrom_read_sectors (fuel : nat) (buffer sector cnt : Z) : prog Z :=
  cdrom_read_sectors_ex fuel buffer sector cnt CDROM_READ_PIO.

Definition cdrom_get_subcode (fuel : nat) (buffer buflen which : Z) : prog Z :=
  let params := getscd_params which buflen buffer in
  cdrom_exec_cmd fuel CMD_GETSCD params.

Definition cdrom_cdda_pause (fuel : nat) : prog Z :=
  cdrom_exec_cmd fuel CMD_PAUSE PNull.

Definition cdrom_cdda_resume (fuel : nat) : prog Z :=
  cdrom_exec_cmd fuel CMD_RELEASE PNull.

Definition cdrom_spin_down (fuel : nat) : prog Z :=
  cdrom_exec_cmd fuel CMD_STOP PNull.

(** ** Closed forms used for the remaining entry points *)

(* [j] rounds of the loop of cdrom_get_status that found the drive busy. *)
Fixpoint busy_rounds (j : nat) : list op :=
  match j with
  | O => []
  | S j' => CheckDrive (mk_check_drive 0 0) :: ThdPass :: busy_rounds j'
  end.

(* The three outcomes the classifier can reach from the zero-initialised
   status structure. *)
Definition outcome_of_check (n : Z) : Z :=
  if (n =? CD_CMD_COMPLETED) || (n =? CD_CMD_STREAMING) then CD_ERR_OK
  else if n =? CD_CMD_NOT_FOUND then CD_ERR_NO_ACTIVE
  else CD_ERR_SYS.

(* The calls of one execute-command cycle that is accepted at attempt [j]
   and sees a terminal status at check [m]. *)
Definition completed_cycle (j m : nat) (cmd : Z) (param : cmd_param) (id : Z)
           (timed : bool) : list op :=
  MutexLock :: failed_attempts j cmd param
  ++ SendCommand cmd param
  :: (if timed then [TimerMsGettime64] else [])
  ++ poll_rounds m id zero_status timed
  ++ [ExecServer; CheckCommand id zero_status; MutexUnlock].

(** ** Gate discipline of a whole program *)

(* Whether a mutex call has taken the gate, given its answer. *)
Definition acquired (o : op) : resp o -> bool :=
  match o return resp o -> bool with
  | MutexLock => fun _ => true
  | MutexLockIrqsafe => fun r => r =? 0
  | _ => fun _ => false
  end.

(* [bracketed held p]: started with the gate held by the caller or not
   ([held]), every path of [p] calls the drive only while it holds the gate,
   acquires only when it does not hold it, releases only when it does, and
   returns without it. *)
Fixpoint bracketed {A} (held : bool) (p : prog A) : Prop :=
  match p with
  | Ret _ => held = false
  | OutOfFuel => True
  | Vis o k =>
      if is_drive_op o then held = true /\ forall r, bracketed true (k r)
      else
        match o with
        | MutexUnlock => held = true /\ forall r, bracketed false (k r)
        | _ => held = false /\ forall r, bracketed (acquired o r) (k r)
        end
  end.

(* Whether caller [t] holds the gate in configuration [c]. *)
Definition holds {A} (c : conf A) (t : tid) : bool :=
  match holder c with
  | Some t' => tid_eqb t' t
  | None => false
  end.

Definition gate_discipline {A} (c : conf A) : Prop :=
  forall t, bracketed (holds c t) (thread_of c t).

(* The calls a user of the driver can make, with their arguments. *)
Inductive driver_call :=
| CallExecCmdTimed (fuel : nat) (cmd : Z) (param : cmd_param) (timeout : Z)
| CallGetStatus (fuel : nat) (status_ptr disc_type_ptr : option Z)
| CallChangeDatatype (sector_part track_type sector_size : Z)
| CallReinitEx (fuel pfuel : nat) (sector_part track_type sector_size : Z)
| CallSetSectorSize (fuel pfuel : nat) (size : Z)
| CallReadToc (fuel : nat) (toc_buffer area : Z)
| CallReadSectorsEx (fuel : nat) (buffer sector cnt mode : Z)
| CallGetSubcode (fuel : nat) (buffer buflen which : Z)
| CallCddaPlay (fuel : nat) (start end_ repeat_ mode : Z)
| CallCddaPause (fuel : nat)
| CallCddaResume (fuel : nat)
| CallSpinDown (fuel : nat).

(* The program of a call; of cdrom_get_status only the return value is
   kept. *)
Definition driver_prog (d : driver_call) : prog Z :=
  match d with
  | CallExecCmdTimed fuel cmd param timeout =>
      cdrom_exec_cmd_timed fuel cmd param timeout
  | CallGetStatus fuel s d =>
      x <- cdrom_get_status fuel s d ;; Ret (fst (fst x))
  | CallChangeDatatype sp ty ss => cdrom_change_datatype sp ty ss
  | CallReinitEx fuel pfuel sp ty ss => cdrom_reinit_ex fuel pfuel sp ty ss
  | CallSetSectorSize fuel pfuel size => cdrom_set_sector_size fuel pfuel size
  | CallReadToc fuel b a => cdrom_read_toc fuel b a
  | CallReadSectorsEx fuel b s c m => cdrom_read_sectors_ex fuel b s c m
  | CallGetSubcode fuel b l w => cdrom_get_subcode fuel b l w
  | CallCddaPlay fuel s e r m => cdrom_cdda_play fuel s e r m
  | CallCddaPause fuel => cdrom_cdda_pause fuel
  | CallCddaResume fuel => cdrom_cdda_resume fuel
  | CallSpinDown fuel => cdrom_spin_down fuel
  end.

(* The calls that go through cdrom_exec_cmd, that is, with timeout 0. *)
Definition untimed (d : driver_call) : Prop :=
  match d with
  | CallExecCmdTimed _ _ _ timeout => timeout = 0
  | CallReadToc _ _ _ | CallReadSectorsEx _ _ _ _ _ | CallGetSubcode _ _ _ _
  | CallCddaPlay _ _ _ _ _ | CallCddaPause _ | CallCddaResume _
  | CallSpinDown _ => True
  | _ => False
  end.

(* A drive that answers busy twice before it answers 0. *)
Definition fw_busy_twice : firmware :=
  mk_firmware (fun _ => 1)
              (fun _ => (CD_CMD_COMPLETED, zero_status))
              (fun _ => 0)
              (fun k => Z.of_nat k)
              (fun k => if (k <? 2)%nat then (CD_CMD_BUSY, mk_check_drive 0 0)
                        else (0, mk_check_drive 1 CD_CDROM))
              (fun _ => 0).

(* Refuses once, then accepts with handle 5; the command is processed for
   two checks and then completes; 10 ms pass between clock readings. *)
Definition fw_slow_ok : firmware :=
  mk_firmware (fun k => if (k <? 1)%nat then 0 else 5)
              (fun k => if (k <? 2)%nat then (CD_CMD_PROCESSING, zero_status)
                        else (CD_CMD_COMPLETED, zero_status))
              (fun _ => 0)
              (fun k => 500 + 10 * Z.of_nat k)
              (fun _ => (0, mk_check_drive 1 CD_CDROM))
              (fun _ => 0).

(* Answers a submission with a negative value. *)
Definition fw_negative_handle : firmware :=
  mk_firmware (fun _ => -1)
              (fun _ => (CD_CMD_COMPLETED, zero_status))
              (fun _ => 0)
              (fun k => Z.of_nat k)
              (fun _ => (0, mk_check_drive 1 CD_CDROM))
              (fun _ => 0).

(* Accepts a command that stays in processing, while the clock keeps
   showing the same millisecond. *)
Definition fw_same_ms : firmware :=
  mk_firmware (fun _ => 1)
              (fun _ => (CD_CMD_PROCESSING, zero_status))
              (fun _ => 0)
              (fun _ => 7)
              (fun _ => (0, mk_check_drive 1 CD_CDROM))
              (fun _ => 0).

(* The pair a call leaves when its int result is returned as a
   cd_cmd_ret_t. *)
Definition as_cd_cmd_ret (x : outcome Z * world) : outcome Z * world :=
  match x with
  | (Done v, w) => (Done (to_cd_cmd_ret v), w)
  | other => other
  end.

(* Completes every command at the first check; the set-mode syscall fails
   with -1. *)
Definition fw_set_mode_fails : firmware :=
  mk_firmware (fun _ => 1)
              (fun _ => (CD_CMD_COMPLETED, zero_status))
              (fun _ => 0)
              (fun k => Z.of_nat k)
              (fun _ => (0, mk_check_drive 1 CD_CDROM))
              (fun _ => -1).

(** ** Basic facts about [run] *)

(* Two worlds built from the same fields: compare counters by arithmetic
   and traces up to re-bracketing. *)
Ltac world_fields :=
  match goal with
  | |- mk_world _ _ _ _ _ _ _ _ = mk_world _ _ _ _ _ _ _ _ =>
      f_equal;
      first [ lia
            | rewrite <- ?app_assoc; simpl; reflexivity
            | idtac ]
  end.

Ltac world_eq :=
  cbv beta iota delta
      [bump log set_gate leave tick_send tick_check tick_abort tick_clock
       tick_drive tick_mode gate_held n_send n_check n_abort n_clock n_drive
       n_mode trace];
  unfold count; simpl;
  match goal with
  | |- (_, _) = (_, _) => f_equal; [ .. | world_fields ]
  | |- _ => world_fields
  end.

Section RunFacts.
Variable fw : firmware.

Lemma run_bind {A B} (p : prog A) (f : A -> prog B) (w : world) :
  run fw (bind p f) w =
  match run fw p w with
  | (Done a, w') => run fw (f a) w'
  | (Fuel, w') => (Fuel, w')
  | (Blocked, w') => (Blocked, w')
  end.
Proof.
  revert w; induction p as [a | o k IH | ]; intros w; simpl; try reflexivity.
  destruct (respond fw w o) as [[r w'] | ]; [apply IH | reflexivity].
Qed.

Lemma bump_nil (w : world) :
  bump w (gate_held w) 0 0 0 0 0 0 [] = w.
Proof.
  destruct w; unfold bump; simpl.
  rewrite !Nat.add_0_r, app_nil_r; reflexivity.
Qed.

Lemma count_app f l1 l2 : count f (l1 ++ l2) = (count f l1 + count f l2)%nat.
Proof. unfold count. rewrite filter_app, length_app. reflexivity. Qed.

Lemma submit_trace_sends base n cmd param :
  (count is_send (submit_trace fw base n cmd param) <= n)%nat.
Proof.
  revert base; induction n as [ | n IH]; intros base; simpl; [apply Nat.le_refl | ].
  destruct (fw_send fw base =? 0); simpl.
  - apply le_n_S, IH.
  - apply le_n_S, Nat.le_0_l.
Qed.

Lemma run_submit_loop n cmd param id w :
  run fw (submit_loop n cmd param id) w =
  (Done (submit_id fw (n_send w) n id),
   bump w (gate_held w)
        (count is_send (submit_trace fw (n_send w) n cmd param)) 0 0 0 0 0
        (submit_trace fw (n_send w) n cmd param)).
Proof.
  revert id w; induction n as [ | n IH]; intros id w.
  - simpl. rewrite bump_nil. reflexivity.
  - cbn [submit_loop bind call run respond submit_id submit_trace].
    destruct (fw_send fw (n_send w) =? 0) eqn:E; cbn [negb].
    + cbn [bind call run respond]. rewrite IH.
      apply Z.eqb_eq in E. destruct w; simpl in E |- *. rewrite E.
      world_eq.
    + cbn [run]. destruct w. world_eq.
Qed.

Lemma nonterminal_test n :
  nonterminal n ->
  negb (n =? CD_CMD_PROCESSING) && negb (n =? CD_CMD_BUSY) = false.
Proof. intros [-> | ->]; reflexivity. Qed.

(* Without a budget and without a terminal status the loop only burns
   fuel: one tick, one check and one yield per round. *)
Lemma run_poll_untimed_spin fuel id st begin w :
  (forall i, (i < fuel)%nat -> nonterminal (fst (fw_check fw (n_check w + i)))) ->
  run fw (poll_loop fuel id st 0 begin) w =
  (Fuel, bump w (gate_held w) 0 fuel 0 0 0 0 (poll_rounds fuel id st false)).
Proof.
  revert w; induction fuel as [ | fuel IH]; intros w H.
  - simpl. rewrite bump_nil. reflexivity.
  - cbn [poll_loop bind call run respond].
    pose proof (H O (Nat.lt_0_succ _)) as H0. rewrite Nat.add_0_r in H0.
    replace (n_check (log ExecServer w)) with (n_check w) by reflexivity.
    destruct (fw_check fw (n_check w)) as [n s] eqn:E. simpl in H0.
    rewrite (nonterminal_test _ H0). cbn [Z.eqb negb bind call run respond].
    rewrite IH.
    + destruct w. world_eq.
    + intros i Hi. specialize (H (S i) ltac:(lia)).
      destruct w; simpl in *. rewrite Nat.add_succ_r in H. exact H.
Qed.

(* With a budget [T] and no terminal status: [m] rounds see the budget
   respected, the next one sees it exceeded. *)
Lemma run_poll_timed_out m fuel id st T begin w :
  T <> 0 ->
  (m < fuel)%nat ->
  (forall i, (i <= m)%nat -> nonterminal (fst (fw_check fw (n_check w + i)))) ->
  (forall i, (i < m)%nat -> uint64_sub (fw_clock fw (n_clock w + i)) begin < T) ->
  uint64_sub (fw_clock fw (n_clock w + m)) begin >= T ->
  run fw (poll_loop fuel id st T begin) w =
  (Done (inr CD_ERR_TIMEOUT),
   bump w (gate_held w) 0 (S m) 1 (S m) 0 0
        (poll_rounds m id st true ++ timeout_round id st)).
Proof.
  intros HT. revert fuel w; induction m as [ | m IH]; intros fuel w Hf Hc Ht Hm;
    (destruct fuel as [ | fuel]; [lia | ]);
    cbn [poll_loop bind call run respond];
    pose proof (Hc O (Nat.le_0_l _)) as H0; rewrite Nat.add_0_r in H0;
    replace (n_check (log ExecServer w)) with (n_check w) by reflexivity;
    destruct (fw_check fw (n_check w)) as [n s] eqn:E; simpl in H0;
    rewrite (nonterminal_test _ H0);
    apply Z.eqb_neq in HT; rewrite HT; cbn [negb bind call run respond];
    replace (n_clock (tick_check (log (CheckCommand id st) (log ExecServer w))))
      with (n_clock w) by reflexivity.
  - rewrite Nat.add_0_r in Hm.
    destruct (uint64_sub (fw_clock fw (n_clock w)) begin >=? T) eqn:G;
      [ | rewrite Z.geb_leb in G; apply Z.leb_gt in G; lia].
    cbn [bind call run respond]. destruct w. world_eq.
  - pose proof (Ht O (Nat.lt_0_succ _)) as Ht0. rewrite Nat.add_0_r in Ht0.
    destruct (uint64_sub (fw_clock fw (n_clock w)) begin >=? T) eqn:G;
      [rewrite Z.geb_leb in G; apply Z.leb_le in G; lia | ].
    cbn [bind call run respond]. rewrite IH.
    + destruct w. world_eq.
    + lia.
    + intros i Hi. specialize (Hc (S i) ltac:(lia)).
      destruct w; simpl in *. rewrite Nat.add_succ_r in Hc. exact Hc.
    + intros i Hi. specialize (Ht (S i) ltac:(lia)).
      destruct w; simpl in *. rewrite Nat.add_succ_r in Ht. exact Ht.
    + destruct w; simpl in *. rewrite Nat.add_succ_r in Hm. exact Hm.
Qed.

Lemma run_scoped {A} (body : prog A) (w : world) :
  gate_held w = false ->
  run fw (mutex_lock_scoped body) w =
  match run fw body (set_gate true (log MutexLock w)) with
  | (Done a, w') => (Done a, leave w')
  | (Fuel, w') => (Fuel, w')
  | (Blocked, w') => (Blocked, w')
  end.
Proof.
  intros Hg. unfold mutex_lock_scoped.
  cbn [bind call run respond]. rewrite Hg.
  rewrite run_bind.
  destruct (run fw body (set_gate true (log MutexLock w))) as [[a | | ] w'];
    reflexivity.
Qed.

(* One execute-command cycle, split at the poll loop. *)
Lemma run_exec_cmd_timed fuel cmd param T w :
  gate_held w = false ->
  run fw (cdrom_exec_cmd_timed fuel cmd param T) w =
  let id := submit_id fw (n_send w) CD_CMD_RETRY_MAX 0 in
  let w1 := after_submit fw w cmd param in
  if id <=? 0 then (Done CD_ERR_SYS, leave w1)
  else
    let begin := if negb (T =? 0) then fw_clock fw (n_clock w) else 0 in
    let w2 := if negb (T =? 0) then tick_clock (log TimerMsGettime64 w1) else w1 in
    match run fw (poll_loop fuel id zero_status T begin) w2 with
    | (Done (inr ret), w3) => (Done ret, leave w3)
    | (Done (inl n), w3) => (Done (classify_result n zero_status), leave w3)
    | (Fuel, w3) => (Fuel, w3)
    | (Blocked, w3) => (Blocked, w3)
    end.
Proof.
  intros Hg. unfold cdrom_exec_cmd_timed. rewrite (run_scoped _ _ Hg).
  rewrite run_bind, run_submit_loop.
  replace (n_send (set_gate true (log MutexLock w))) with (n_send w) by reflexivity.
  replace (bump (set_gate true (log MutexLock w)) _ _ _ _ _ _ _ _)
    with (after_submit fw w cmd param)
    by (unfold after_submit; destruct w; world_eq).
  cbv zeta.
  destruct (submit_id fw (n_send w) CD_CMD_RETRY_MAX 0 <=? 0); [reflexivity | ].
  rewrite run_bind.
  destruct (negb (T =? 0)) eqn:ET.
  - cbn [call run respond].
    replace (n_clock (after_submit fw w cmd param)) with (n_clock w)
      by (unfold after_submit; destruct w; simpl; lia).
    rewrite run_bind.
    destruct (run fw (poll_loop fuel _ zero_status T _) _) as [[[n | r] | | ] w3];
      reflexivity.
  - cbn [run]. rewrite run_bind.
    destruct (run fw (poll_loop fuel _ zero_status T _) _) as [[[n | r] | | ] w3];
      reflexivity.
Qed.

(* Whatever the firmware answers, the poll loop sends nothing, never
   blocks, and without a budget neither aborts nor reads the clock nor
   leaves through its timeout return. *)
Lemma poll_loop_shape fuel id st T begin w :
  exists res c a t evs,
    run fw (poll_loop fuel id st T begin) w =
    (res, bump w (gate_held w) 0 c a t 0 0 evs) /\
    count is_send evs = O /\
    res <> Blocked /\
    (T = 0 -> count is_abort evs = O /\ t = O /\ forall r, res <> Done (inr r)).
Proof.
  revert w; induction fuel as [ | fuel IH]; intros w.
  - exists Fuel, O, O, O, []. simpl. rewrite bump_nil.
    repeat split; try reflexivity; try discriminate.
  - cbn [poll_loop bind call run respond].
    replace (n_check (log ExecServer w)) with (n_check w) by reflexivity.
    destruct (fw_check fw (n_check w)) as [n s].
    destruct (negb (n =? CD_CMD_PROCESSING) && negb (n =? CD_CMD_BUSY)).
    + exists (Done (inl n)), 1%nat, O, O, [ExecServer; CheckCommand id st].
      cbn [run]. split; [destruct w; world_eq | ].
      repeat split; try reflexivity; try discriminate.
    + destruct (T =? 0) eqn:ET; cbn [negb bind call run respond].
      * match goal with |- context [run fw (poll_loop fuel id st T begin) ?w'] =>
          destruct (IH w') as (res & c & a & t & evs & Hrun & Hs & Hb & H0)
        end.
        rewrite Hrun.
        exists res, (S c), a, t, ([ExecServer; CheckCommand id st; ThdPass] ++ evs).
        split; [destruct w; world_eq | ].
        rewrite count_app. split; [exact Hs | ]. split; [exact Hb | ].
        intros HT. destruct (H0 HT) as (Ha & Ht & Hr).
        rewrite count_app. repeat split; assumption.
      * apply Z.eqb_neq in ET.
        replace (n_clock (tick_check (log (CheckCommand id st) (log ExecServer w))))
          with (n_clock w) by reflexivity.
        destruct (uint64_sub (fw_clock fw (n_clock w)) begin >=? T).
        -- cbn [bind call run respond].
           exists (Done (inr CD_ERR_TIMEOUT)), 1%nat, 1%nat, 1%nat,
                  (timeout_round id st).
           split; [destruct w; world_eq | ].
           repeat split; try reflexivity; try discriminate; contradiction.
        -- cbn [bind call run respond].
           match goal with |- context [run fw (poll_loop fuel id st T begin) ?w'] =>
             destruct (IH w') as (res & c & a & t & evs & Hrun & Hs & Hb & H0)
           end.
           rewrite Hrun.
           exists res, (S c), a, (S t),
                  ([ExecServer; CheckCommand id st; TimerMsGettime64; ThdPass] ++ evs).
           split; [destruct w; world_eq | ].
           rewrite count_app. split; [exact Hs | ]. split; [exact Hb | ].
           intros HT. contradiction.
Qed.

Lemma submit_all_fail base n cmd param id :
  (forall i, (i < n)%nat -> fw_send fw (base + i) = 0) ->
  submit_trace fw base n cmd param = failed_attempts n cmd param /\
  submit_id fw base n id = match n with O => id | S _ => 0 end.
Proof.
  revert base id; induction n as [ | n IH]; intros base id H; [split; reflexivity | ].
  pose proof (H O (Nat.lt_0_succ _)) as H0. rewrite Nat.add_0_r in H0.
  simpl. rewrite H0. simpl.
  destruct (IH (S base) 0) as [Ht Hi].
  - intros i Hi. specialize (H (S i) ltac:(lia)).
    rewrite Nat.add_succ_r in H. exact H.
  - rewrite Ht, Hi. split; [reflexivity | destruct n; reflexivity].
Qed.

Lemma submit_first_ok base n j cmd param id :
  (j < n)%nat ->
  (forall i, (i < j)%nat -> fw_send fw (base + i) = 0) ->
  fw_send fw (base + j) <> 0 ->
  submit_trace fw base n cmd param =
    failed_attempts j cmd param ++ [SendCommand cmd param] /\
  submit_id fw base n id = fw_send fw (base + j).
Proof.
  revert base n id; induction j as [ | j IH]; intros base n id Hj H Hok;
    (destruct n as [ | n]; [lia | ]); simpl.
  - rewrite Nat.add_0_r in *. apply Z.eqb_neq in Hok. rewrite Hok.
    split; reflexivity.
  - pose proof (H O (Nat.lt_0_succ _)) as H0. rewrite Nat.add_0_r in H0.
    rewrite H0. simpl.
    destruct (IH (S base) n 0) as [Ht Hi].
    + lia.
    + intros i Hi. specialize (H (S i) ltac:(lia)).
      rewrite Nat.add_succ_r in H. exact H.
    + rewrite Nat.add_succ_r in Hok. exact Hok.
    + rewrite Ht, Hi. rewrite Nat.add_succ_r. split; reflexivity.
Qed.

Lemma failed_attempts_sends j cmd param :
  count is_send (failed_attempts j cmd param) = j.
Proof.
  induction j as [ | j IH]; [reflexivity | ].
  unfold count in *; simpl. rewrite IH. reflexivity.
Qed.

Lemma submit_trace_only cmd param base n :
  Forall (fun o => o = SendCommand cmd param \/ o = ExecServer \/ o = ThdPass)
         (submit_trace fw base n cmd param).
Proof.
  revert base; induction n as [ | n IH]; intros base; simpl; [constructor | ].
  constructor; [left; reflexivity | ].
  destruct (fw_send fw base =? 0); [ | constructor].
  constructor; [right; left; reflexivity | ].
  constructor; [right; right; reflexivity | apply IH].
Qed.

(* What one execute-command cycle logs: the gate, the submission, and a
   remainder in which nothing is sent. *)
Lemma exec_events fuel cmd param T w :
  gate_held w = false ->
  exists rest,
    trace (snd (run fw (cdrom_exec_cmd_timed fuel cmd param T) w)) =
      trace w ++ MutexLock :: submit_trace fw (n_send w) CD_CMD_RETRY_MAX cmd param
              ++ rest /\
    count is_send rest = O /\
    (T = 0 -> count is_abort rest = O /\
              fst (run fw (cdrom_exec_cmd_timed fuel cmd param T) w)
              <> Done CD_ERR_TIMEOUT) /\
    (submit_id fw (n_send w) CD_CMD_RETRY_MAX 0 <= 0 ->
       rest = [MutexUnlock] /\
       fst (run fw (cdrom_exec_cmd_timed fuel cmd param T) w) = Done CD_ERR_SYS).
Proof.
  intros Hg. rewrite (run_exec_cmd_timed _ _ _ _ _ Hg). cbv zeta.
  destruct (submit_id fw (n_send w) CD_CMD_RETRY_MAX 0 <=? 0) eqn:Eid.
  - exists [MutexUnlock]. split; [ | repeat split; try reflexivity; discriminate].
    unfold after_submit, leave; destruct w; simpl.
    rewrite <- app_assoc. reflexivity.
  - apply Z.leb_gt in Eid.
    match goal with |- context [run fw (poll_loop fuel ?id ?st T ?b) ?w2] =>
      destruct (poll_loop_shape fuel id st T b w2)
        as (res & c & a & t & evs & Hrun & Hs & Hb & H0); rewrite Hrun
    end.
    destruct (T =? 0) eqn:ET; cbn [negb] in *.
    + apply Z.eqb_eq in ET. destruct (H0 ET) as (Ha & _ & Hr).
      destruct res as [[n | r] | | ].
      * exists (evs ++ [MutexUnlock]). split.
        { unfold after_submit, leave; destruct w; simpl.
          rewrite <- !app_assoc. reflexivity. }
        rewrite !count_app, Hs, Ha. split; [reflexivity | ].
        split; [ | intros; lia].
        intros _. split; [reflexivity | ]. simpl.
        unfold classify_result, zero_status; simpl.
        destruct ((n =? CD_CMD_COMPLETED) || (n =? CD_CMD_STREAMING));
          [discriminate | ].
        destruct (n =? CD_CMD_NOT_FOUND); discriminate.
      * exfalso. apply (Hr r). reflexivity.
      * exists evs. split.
        { unfold after_submit; destruct w; simpl.
          rewrite <- !app_assoc. reflexivity. }
        split; [exact Hs | ]. split; [ | intros; lia].
        intros _. split; [exact Ha | discriminate].
      * contradiction.
    + apply Z.eqb_neq in ET.
      destruct res as [[n | r] | | ].
      * exists (TimerMsGettime64 :: evs ++ [MutexUnlock]). split.
        { unfold after_submit, leave; destruct w; simpl.
          rewrite <- !app_assoc. reflexivity. }
        split; [ | split; [intros; contradiction | intros; lia]].
        change (TimerMsGettime64 :: evs ++ [MutexUnlock])
          with ([TimerMsGettime64] ++ evs ++ [MutexUnlock]).
        rewrite !count_app, Hs. reflexivity.
      * exists (TimerMsGettime64 :: evs ++ [MutexUnlock]). split.
        { unfold after_submit, leave; destruct w; simpl.
          rewrite <- !app_assoc. reflexivity. }
        split; [ | split; [intros; contradiction | intros; lia]].
        change (TimerMsGettime64 :: evs ++ [MutexUnlock])
          with ([TimerMsGettime64] ++ evs ++ [MutexUnlock]).
        rewrite !count_app, Hs. reflexivity.
      * exists (TimerMsGettime64 :: evs). split.
        { unfold after_submit; destruct w; simpl.
          rewrite <- !app_assoc. reflexivity. }
        split; [ | split; [intros; contradiction | intros; lia]].
        change (TimerMsGettime64 :: evs) with ([TimerMsGettime64] ++ evs).
        rewrite !count_app, Hs. reflexivity.
      * contradiction.
Qed.
End RunFacts.

(** ** Submission *)

Lemma failed_attempts_checks j cmd param :
  count is_check (failed_attempts j cmd param) = O.
Proof. induction j as [ | j IH]; [reflexivity | exact IH]. Qed.

(** C3.  A command is offered to [syscall_gdrom_send_command] at most
    [CD_CMD_RETRY_MAX] = 10 times.  An attempt is repeated only after the
    answer 0, with one tick and one yield in between; the first non-zero
    answer ends the submission.  When all ten answers are 0 the call returns
    [CD_ERR_SYS] having logged nothing but the gate and the ten attempts: the
    poll loop is not entered and [syscall_gdrom_check_command] is not
    called. *)
Theorem submit_retries_bounded (fw : firmware) (w : world) (fuel : nat)
        (cmd : Z) (param : cmd_param) (timeout : Z) :
  gate_held w = false ->
  exists evs,
    trace (snd (run fw (cdrom_exec_cmd_timed fuel cmd param timeout) w)) =
      trace w ++ evs /\
    (count is_send evs <= 10)%nat /\
    (forall j, (j < CD_CMD_RETRY_MAX)%nat ->
       (forall i, (i < j)%nat -> fw_send fw (n_send w + i) = 0) ->
       fw_send fw (n_send w + j) <> 0 ->
       exists rest,
         evs = MutexLock :: failed_attempts j cmd param
                 ++ SendCommand cmd param :: rest /\
         count is_send rest = O) /\
    ((forall i, (i < CD_CMD_RETRY_MAX)%nat -> fw_send fw (n_send w + i) = 0) ->
       fst (run fw (cdrom_exec_cmd_timed fuel cmd param timeout) w)
         = Done CD_ERR_SYS /\
       evs = MutexLock :: failed_attempts CD_CMD_RETRY_MAX cmd param
               ++ [MutexUnlock] /\
       count is_check evs = O).
Proof.
  intros Hg.
  destruct (exec_events fw fuel cmd param timeout w Hg)
    as (rest & Htr & Hs & _ & Hfail).
  exists (MutexLock :: submit_trace fw (n_send w) CD_CMD_RETRY_MAX cmd param ++ rest).
  split; [exact Htr | ]. split; [ | split].
  - change (MutexLock :: ?l) with ([MutexLock] ++ l).
    rewrite !count_app, Hs.
    pose proof (submit_trace_sends fw (n_send w) CD_CMD_RETRY_MAX cmd param) as Hle.
    assert (Hmax : CD_CMD_RETRY_MAX = 10%nat) by reflexivity.
    change (count is_send [MutexLock]) with O. lia.
  - intros j Hj Hz Hok. exists rest. split; [ | exact Hs].
    destruct (submit_first_ok fw (n_send w) CD_CMD_RETRY_MAX j cmd param 0 Hj Hz Hok)
      as [-> _].
    rewrite <- app_assoc. reflexivity.
  - intros Hz.
    destruct (submit_all_fail fw (n_send w) CD_CMD_RETRY_MAX cmd param 0 Hz)
      as [Ht Hi].
    destruct (Hfail ltac:(rewrite Hi; simpl; lia)) as [-> Hres].
    rewrite Ht. split; [exact Hres | ]. split; [reflexivity | ].
    change (MutexLock :: ?l) with ([MutexLock] ++ l).
    rewrite !count_app, failed_attempts_checks. reflexivity.
Qed.

(** ** Polling and the timeout *)

Lemma poll_rounds_aborts j id st timed :
  count is_abort (poll_rounds j id st timed) = O.
Proof.
  induction j as [ | j IH]; [reflexivity | ].
  destruct timed; exact IH.
Qed.

Lemma failed_attempts_aborts j cmd param :
  count is_abort (failed_attempts j cmd param) = O.
Proof. induction j as [ | j IH]; [reflexivity | exact IH]. Qed.

Lemma clock_monotone (c : nat -> Z) (a k : nat) :
  (forall i, (i < k)%nat -> c (a + i)%nat <= c (a + S i)%nat) ->
  c a <= c (a + k)%nat.
Proof.
  induction k as [ | k IH]; intros H.
  - rewrite Nat.add_0_r. lia.
  - specialize (IH ltac:(intros i Hi; apply H; lia)).
    specialize (H k ltac:(lia)). lia.
Qed.

Lemma uint64_sub_exact (a b : Z) :
  0 <= b <= a -> a < 2 ^ 64 -> uint64_sub a b = a - b.
Proof. intros H1 H2. unfold uint64_sub. apply Z.mod_small. lia. Qed.

(** C2.  Take a call whose gate is free.
    - With timeout 0 no abort is ever issued and [CD_ERR_TIMEOUT] is never
      returned, whatever the firmware answers.
    - Let the submission be accepted at attempt [j] and let
      [syscall_gdrom_check_command] never report a terminal status.  With
      timeout 0 the call then polls for as long as it is given fuel: after
      [fuel] rounds it has made [fuel] checks and has not returned.  With a
      budget [0 < T < 2^32], if the reading of round [m] is the first one with
      an elapsed time of at least [T], the call returns [CD_ERR_TIMEOUT] in
      that round: it has logged exactly one abort, followed by one more tick,
      and when the clock readings of the call are 64-bit values that grow by
      at most [d] ms from one to the next (the duration of one
      yield-tick-check cycle) the elapsed time at that reading is below
      [T + d]. *)
Theorem poll_timeout (fw : firmware) (w : world) (cmd : Z) (param : cmd_param) :
  gate_held w = false ->
  (forall fuel,
      fst (run fw (cdrom_exec_cmd_timed fuel cmd param 0) w) <> Done CD_ERR_TIMEOUT /\
      exists evs,
        trace (snd (run fw (cdrom_exec_cmd_timed fuel cmd param 0) w)) =
          trace w ++ evs /\
        count is_abort evs = O) /\
  (forall j,
      (j < CD_CMD_RETRY_MAX)%nat ->
      (forall i, (i < j)%nat -> fw_send fw (n_send w + i) = 0) ->
      0 < fw_send fw (n_send w + j) ->
      (forall i, nonterminal (fst (fw_check fw i))) ->
      let id := fw_send fw (n_send w + j) in
      (forall fuel,
          fst (run fw (cdrom_exec_cmd_timed fuel cmd param 0) w) = Fuel /\
          n_check (snd (run fw (cdrom_exec_cmd_timed fuel cmd param 0) w)) =
            (n_check w + fuel)%nat) /\
      (forall T m fuel,
          0 < T < 2 ^ 32 ->
          (forall i, (i < m)%nat ->
             uint64_sub (fw_clock fw (n_clock w + 1 + i)) (fw_clock fw (n_clock w)) < T) ->
          uint64_sub (fw_clock fw (n_clock w + 1 + m)) (fw_clock fw (n_clock w)) >= T ->
          (m < fuel)%nat ->
          let r := run fw (cdrom_exec_cmd_timed fuel cmd param T) w in
          let evs := MutexLock :: failed_attempts j cmd param
                       ++ [SendCommand cmd param; TimerMsGettime64]
                       ++ poll_rounds m id zero_status true
                       ++ timeout_round id zero_status ++ [MutexUnlock] in
          fst r = Done CD_ERR_TIMEOUT /\
          trace (snd r) = trace w ++ evs /\
          count is_abort evs = 1%nat /\
          n_clock (snd r) = (n_clock w + 2 + m)%nat /\
          (forall d,
              (forall i, (i <= 1 + m)%nat ->
                 0 <= fw_clock fw (n_clock w + i) < 2 ^ 64) ->
              (forall i, (i <= m)%nat ->
                 fw_clock fw (n_clock w + i)
                 <= fw_clock fw (n_clock w + S i)
                 <= fw_clock fw (n_clock w + i) + d) ->
              fw_clock fw (n_clock w + 1 + m) - fw_clock fw (n_clock w) < T + d))).
Proof.
  intros Hg. split.
  - intros fuel.
    destruct (exec_events fw fuel cmd param 0 w Hg) as (rest & Htr & _ & H0 & _).
    destruct (H0 eq_refl) as [Ha Hr]. split; [exact Hr | ].
    eexists. split; [exact Htr | ].
    change (MutexLock :: ?l) with ([MutexLock] ++ l).
    rewrite !count_app, Ha.
    assert (Hsub : count is_abort
                     (submit_trace fw (n_send w) CD_CMD_RETRY_MAX cmd param) = O).
    { generalize (submit_trace_only fw cmd param (n_send w) CD_CMD_RETRY_MAX).
      generalize (submit_trace fw (n_send w) CD_CMD_RETRY_MAX cmd param).
      induction l as [ | o l IH]; intros HF; [reflexivity | ].
      inversion HF as [ | ? ? Ho HF']; subst.
      unfold count in *; simpl.
      destruct Ho as [-> | [-> | ->]]; simpl; apply IH; exact HF'. }
    rewrite Hsub. reflexivity.
  - intros j Hj Hz Hpos Hnt id.
    assert (Hne : fw_send fw (n_send w + j) <> 0) by lia.
    destruct (submit_first_ok fw (n_send w) CD_CMD_RETRY_MAX j cmd param 0 Hj Hz Hne)
      as [Ht Hi].
    split.
    + intros fuel. rewrite (run_exec_cmd_timed fw _ _ _ _ _ Hg). cbv zeta.
      rewrite Hi. destruct (fw_send fw (n_send w + j) <=? 0) eqn:E;
        [apply Z.leb_le in E; lia | ].
      cbn [Z.eqb negb]. rewrite run_poll_untimed_spin by (intros; apply Hnt).
      split; [reflexivity | ].
      unfold after_submit; destruct w; simpl. lia.
    + intros T m fuel HT Hlt Hge Hf r evs. subst r.
      rewrite (run_exec_cmd_timed fw _ _ _ _ _ Hg). cbv zeta.
      rewrite Hi. destruct (fw_send fw (n_send w + j) <=? 0) eqn:E;
        [apply Z.leb_le in E; lia | ].
      assert (ET : (T =? 0) = false) by (apply Z.eqb_neq; lia).
      rewrite ET. cbn [negb].
      rewrite (run_poll_timed_out fw m).
      * split; [reflexivity | ]. split.
        { unfold after_submit, leave, evs, id; rewrite Ht; destruct w; simpl.
          repeat (rewrite <- !app_assoc; simpl). reflexivity. }
        split.
        { unfold evs. change (MutexLock :: ?l) with ([MutexLock] ++ l).
          rewrite !count_app, failed_attempts_aborts, poll_rounds_aborts.
          reflexivity. }
        split.
        { unfold after_submit, leave; destruct w; simpl. lia. }
        intros d Hrange Hgap.
        destruct m as [ | m].
        { specialize (Hgap O ltac:(lia)). rewrite Nat.add_0_r in Hgap.
          replace (n_clock w + 1 + 0)%nat with (n_clock w + 1)%nat by lia. lia. }
        specialize (Hlt m ltac:(lia)).
        assert (Hm : fw_clock fw (n_clock w) <= fw_clock fw (n_clock w + (1 + m))).
        { apply clock_monotone. intros i Hi'. apply (Hgap i). lia. }
        pose proof (Hrange O ltac:(lia)) as R0. rewrite Nat.add_0_r in R0.
        pose proof (Hrange (1 + m)%nat ltac:(lia)) as R1.
        rewrite Nat.add_assoc in Hm, R1.
        rewrite uint64_sub_exact in Hlt by lia.
        specialize (Hgap (1 + m)%nat ltac:(lia)).
        rewrite Nat.add_assoc in Hgap.
        replace (n_clock w + S (1 + m))%nat with (n_clock w + 1 + S m)%nat in Hgap by lia.
        lia.
      * lia.
      * exact Hf.
      * intros; apply Hnt.
      * intros i Hi'. specialize (Hlt i Hi').
        replace (n_clock (tick_clock (log TimerMsGettime64 (after_submit fw w cmd param))) + i)%nat
          with (n_clock w + 1 + i)%nat
          by (unfold after_submit; destruct w; simpl; lia).
        exact Hlt.
      * replace (n_clock (tick_clock (log TimerMsGettime64 (after_submit fw w cmd param))) + m)%nat
          with (n_clock w + 1 + m)%nat
          by (unfold after_submit; destruct w; simpl; lia).
        exact Hge.
Qed.

(* A firmware that never accepts the command: ten attempts, then
   [CD_ERR_SYS]. *)
Lemma submit_retries_bounded_witness :
  gate_held world0 = false /\
  fst (run fw_refusing (cdrom_exec_cmd_timed 3 CMD_INIT PNull 0) world0)
    = Done CD_ERR_SYS /\
  trace (snd (run fw_refusing (cdrom_exec_cmd_timed 3 CMD_INIT PNull 0) world0))
    = MutexLock :: failed_attempts 10 CMD_INIT PNull ++ [MutexUnlock].
Proof.
  split; [reflexivity | ].
  destruct (submit_retries_bounded fw_refusing world0 3 CMD_INIT PNull 0 eq_refl)
    as (evs & Htr & _ & _ & H).
  destruct (H (fun _ _ => eq_refl)) as (Hres & Hevs & _).
  split; [exact Hres | ].
  rewrite Htr, Hevs. reflexivity.
Defined.

(* Three refusals, then a command that never finishes, with a budget of
   100 ms and 40 ms between clock readings: the third reading after the start
   shows 120 ms and the call gives up. *)
Lemma poll_timeout_witness :
  gate_held world0 = false /\
  fst (run fw_stalled (cdrom_exec_cmd_timed 5 CMD_INIT PNull 100) world0)
    = Done CD_ERR_TIMEOUT /\
  fw_clock fw_stalled 3 - fw_clock fw_stalled 0 < 100 + 40 /\
  fst (run fw_stalled (cdrom_exec_cmd_timed 5 CMD_INIT PNull 0) world0) = Fuel.
Proof.
  split; [reflexivity | ].
  destruct (poll_timeout fw_stalled world0 CMD_INIT PNull eq_refl) as [_ H].
  assert (Hz : forall i, (i < 3)%nat -> fw_send fw_stalled (n_send world0 + i) = 0).
  { intros i Hi. do 3 (destruct i; [reflexivity | ]). lia. }
  destruct (H 3%nat ltac:(unfold CD_CMD_RETRY_MAX; lia) Hz eq_refl
              (fun _ => or_introl eq_refl)) as [Hspin Htimed].
  assert (Hlt : forall i, (i < 2)%nat ->
            uint64_sub (fw_clock fw_stalled (n_clock world0 + 1 + i))
                       (fw_clock fw_stalled (n_clock world0)) < 100).
  { intros i Hi. do 2 (destruct i; [reflexivity | ]). lia. }
  destruct (Htimed 100 2%nat 5%nat ltac:(lia) Hlt ltac:(discriminate) ltac:(lia))
    as (Hres & _ & _ & _ & Hbound).
  split; [exact Hres | ]. split; [ | exact (proj1 (Hspin 5%nat))].
  apply (Hbound 40).
  - intros i Hi. do 4 (destruct i; [simpl; lia | ]). lia.
  - intros i Hi. do 3 (destruct i; [simpl; lia | ]). lia.
Defined.

(** ** Classification of a finished command *)

(* The poll loop is handed the local [status] by value and hands back only
   the check result, so whatever the firmware reported the classifier sees
   the zero-initialised structure: a terminal result [n] at the first check
   is classified from [n] alone. *)
Lemma exec_terminal_first_check (fw : firmware) (w : world) (fuel : nat)
      (cmd : Z) (param : cmd_param) (timeout : Z) :
  gate_held w = false ->
  0 < fw_send fw (n_send w) ->
  ~ nonterminal (fst (fw_check fw (n_check w))) ->
  fst (run fw (cdrom_exec_cmd_timed (S fuel) cmd param timeout) w) =
  Done (classify_result (fst (fw_check fw (n_check w))) zero_status).
Proof.
  intros Hg Hid Hterm.
  rewrite (run_exec_cmd_timed fw _ _ _ _ _ Hg). cbv zeta.
  assert (Hne : fw_send fw (n_send w + 0) <> 0) by (rewrite Nat.add_0_r; lia).
  destruct (submit_first_ok fw (n_send w) CD_CMD_RETRY_MAX 0 cmd param 0
              ltac:(unfold CD_CMD_RETRY_MAX; lia) ltac:(intros; lia) Hne) as [_ Hi].
  rewrite Hi, Nat.add_0_r.
  destruct (fw_send fw (n_send w) <=? 0) eqn:E; [apply Z.leb_le in E; lia | ].
  assert (Hchk : forall w2, n_check w2 = n_check w ->
            forall T b,
            run fw (poll_loop (S fuel) (fw_send fw (n_send w)) zero_status T b) w2 =
            (Done (inl (fst (fw_check fw (n_check w)))),
             tick_check (log (CheckCommand (fw_send fw (n_send w)) zero_status)
                             (log ExecServer w2)))).
  { intros w2 Hw2 T b. cbn [poll_loop bind call run respond].
    replace (n_check (log ExecServer w2)) with (n_check w) by (rewrite <- Hw2; reflexivity).
    destruct (fw_check fw (n_check w)) as [n s]. simpl in Hterm |- *.
    destruct (negb (n =? CD_CMD_PROCESSING) && negb (n =? CD_CMD_BUSY)) eqn:En;
      [reflexivity | ].
    exfalso. apply Hterm. unfold nonterminal.
    apply andb_false_iff in En. destruct En as [En | En];
      apply negb_false_iff, Z.eqb_eq in En; [left | right]; exact En. }
  destruct (negb (timeout =? 0)); rewrite Hchk; try reflexivity;
    unfold after_submit; destruct w; simpl; lia.
Qed.

(* With the structure left at zero the classifier has three outcomes. *)
Lemma classify_zero_status (n : Z) :
  classify_result n zero_status =
  if (n =? CD_CMD_COMPLETED) || (n =? CD_CMD_STREAMING) then CD_ERR_OK
  else if n =? CD_CMD_NOT_FOUND then CD_ERR_NO_ACTIVE
  else CD_ERR_SYS.
Proof. reflexivity. Qed.

(* The only value the poll loop itself returns is the timeout. *)
Lemma poll_loop_timeout_only (fw : firmware) (fuel : nat) (id : Z)
      (st : cd_cmd_chk_status) (T begin : Z) (w w' : world) (r : Z) :
  run fw (poll_loop fuel id st T begin) w = (Done (inr r), w') ->
  r = CD_ERR_TIMEOUT.
Proof.
  revert w; induction fuel as [ | fuel IH]; intros w H; [discriminate | ].
  cbn [poll_loop bind call run respond] in H.
  destruct (fw_check fw (n_check (log ExecServer w))) as [n s].
  destruct (negb (n =? CD_CMD_PROCESSING) && negb (n =? CD_CMD_BUSY));
    [discriminate | ].
  destruct (negb (T =? 0)); cbn [bind call run respond] in H.
  - destruct (uint64_sub _ begin >=? T); cbn [bind call run respond] in H.
    + inversion H. reflexivity.
    + eapply IH, H.
  - eapply IH, H.
Qed.

(* Whatever the firmware reports, a call never returns [CD_ERR_NO_DISC] or
   [CD_ERR_DISC_CHG]: its outcomes are ok, no-active, system-error and
   timeout. *)
Lemma exec_cmd_timed_outcomes (fw : firmware) (w : world) (fuel : nat)
      (cmd : Z) (param : cmd_param) (timeout r : Z) :
  gate_held w = false ->
  fst (run fw (cdrom_exec_cmd_timed fuel cmd param timeout) w) = Done r ->
  r = CD_ERR_OK \/ r = CD_ERR_NO_ACTIVE \/ r = CD_ERR_SYS \/ r = CD_ERR_TIMEOUT.
Proof.
  intros Hg. rewrite (run_exec_cmd_timed fw _ _ _ _ _ Hg). cbv zeta.
  destruct (submit_id fw (n_send w) CD_CMD_RETRY_MAX 0 <=? 0).
  - simpl. intros H. inversion H. auto.
  - match goal with |- context [run fw (poll_loop fuel ?i ?s timeout ?b) ?w2] =>
      destruct (run fw (poll_loop fuel i s timeout b) w2)
        as [[[n | r'] | | ] w3] eqn:E
    end; simpl; intros H; inversion H; subst.
    + rewrite classify_zero_status.
      destruct ((n =? CD_CMD_COMPLETED) || (n =? CD_CMD_STREAMING)); [auto | ].
      destruct (n =? CD_CMD_NOT_FOUND); auto.
    + apply poll_loop_timeout_only in E. auto.
Qed.

(** C1 (fails on the code).  The firmware accepts the command and the check
    reports a failure whose extended status has primary error 2, "no disc".
    The call returns [CD_ERR_SYS], not [CD_ERR_NO_DISC]: the status structure
    goes to [syscall_gdrom_check_command] by value, so [status.err1] is still
    0 when the switch reads it.  The block of the classifier itself maps a
    structure with [err1 = 2] to [CD_ERR_NO_DISC]. *)
Theorem reported_no_disc_classified_sys :
  fw_check fw_no_disc 0 = (CD_CMD_FAILED, mk_chk_status 2 0 0 0) /\
  classify_result CD_CMD_FAILED (mk_chk_status 2 0 0 0) = CD_ERR_NO_DISC /\
  fst (run fw_no_disc (cdrom_exec_cmd_timed 1 CMD_INIT PNull 0) world0)
    = Done CD_ERR_SYS /\
  CD_ERR_SYS <> CD_ERR_NO_DISC.
Proof.
  split; [reflexivity | ]. split; [reflexivity | ].
  split; [vm_compute; reflexivity | discriminate].
Qed.

(** ** Sector-format negotiation *)

Lemma run_change_datatype (fw : firmware) (sp tt ss : Z) (w : world) :
  gate_held w = false ->
  run fw (cdrom_change_datatype sp tt ss) w =
  (Done (fw_sector_mode fw (n_mode w)),
   bump w false 0 0 0 0 (if queries_drive tt ss then 1 else 0) 1
        (change_datatype_events sp tt ss)).
Proof.
  intros Hg. unfold cdrom_change_datatype. rewrite (run_scoped fw _ _ Hg).
  unfold change_datatype_events, queries_drive, resolve_sector_mode.
  rewrite run_bind.
  destruct (ss =? 2352); cbn [negb andb].
  - cbn [run call respond]. destruct w. world_eq.
  - rewrite run_bind.
    destruct (tt =? CD_TRACK_TYPE_DEFAULT).
    + cbn [bind call run respond disc_type].
      change (0 =? CD_CDROM_XA) with false. cbn [run call respond].
      destruct w. world_eq.
    + cbn [run call respond]. destruct w. world_eq.
Qed.

(** C5 (fails on the code).  The drive reports a CD-ROM XA disc and the
    caller asks for all defaults.  The structure handed to the set-mode
    syscall names mode 1, not mode 2 form 1: [check_params] goes to
    [syscall_gdrom_check_drive] by value, so the disc type the code compares
    with [CD_CDROM_XA] is the 0 it was initialised with.  Sector part and
    sector size resolve as claimed, and the syscall's return value is passed
    on as it is. *)
Theorem xa_default_resolves_mode1 :
  fw_check_drive fw_xa 0 = (0, mk_check_drive 1 CD_CDROM_XA) /\
  run fw_xa (cdrom_change_datatype CD_READ_DEFAULT CD_TRACK_TYPE_DEFAULT (-1)) world0 =
  (Done (fw_sector_mode fw_xa 0),
   mk_world false 0 0 0 0 1 1
     [MutexLock; CheckDrive (mk_check_drive 0 0);
      SectorMode (mk_sec_mode 0 CD_READ_DATA_AREA CD_TRACK_TYPE_MODE1 2048);
      MutexUnlock]) /\
  CD_TRACK_TYPE_MODE1 <> CD_TRACK_TYPE_MODE2_FORM1.
Proof.
  split; [reflexivity | ]. split; [vm_compute; reflexivity | discriminate].
Qed.

(** C7.  Two successive calls of
    [cdrom_change_datatype(CD_READ_WHOLE_SECTOR, CD_TRACK_TYPE_ANY, 2352)]
    hand the same structure (set, whole sector, any, 2352) to the set-mode
    syscall, whatever the firmware answers in between; the drive state is not
    queried. *)
Theorem change_datatype_idempotent (fw : firmware) (w : world) :
  gate_held w = false ->
  let call_it := cdrom_change_datatype CD_READ_WHOLE_SECTOR CD_TRACK_TYPE_ANY 2352 in
  let evs := [MutexLock;
              SectorMode (mk_sec_mode 0 CD_READ_WHOLE_SECTOR CD_TRACK_TYPE_ANY 2352);
              MutexUnlock] in
  let r1 := run fw call_it w in
  let r2 := run fw call_it (snd r1) in
  trace (snd r1) = trace w ++ evs /\
  trace (snd r2) = trace (snd r1) ++ evs /\
  n_drive (snd r2) = n_drive w /\
  fst r1 = Done (fw_sector_mode fw (n_mode w)) /\
  fst r2 = Done (fw_sector_mode fw (S (n_mode w))).
Proof.
  intros Hg call_it evs r1 r2. subst r1 r2 call_it.
  rewrite (run_change_datatype fw _ _ _ _ Hg).
  cbn [snd fst]. rewrite run_change_datatype by reflexivity.
  cbn [snd fst]. destruct w; simpl.
  repeat split; try reflexivity; try lia.
  f_equal. f_equal. lia.
Qed.

Lemma change_datatype_idempotent_witness :
  gate_held world0 = false /\
  trace (snd (run fw_xa
                (cdrom_change_datatype CD_READ_WHOLE_SECTOR CD_TRACK_TYPE_ANY 2352)
                (snd (run fw_xa
                        (cdrom_change_datatype CD_READ_WHOLE_SECTOR
                                               CD_TRACK_TYPE_ANY 2352)
                        world0)))) =
  [MutexLock; SectorMode (mk_sec_mode 0 0x1000 0 2352); MutexUnlock;
   MutexLock; SectorMode (mk_sec_mode 0 0x1000 0 2352); MutexUnlock].
Proof.
  split; [reflexivity | ].
  destruct (change_datatype_idempotent fw_xa world0 eq_refl) as (H1 & H2 & _).
  rewrite H2, H1. reflexivity.
Defined.

(** ** Status query *)

(** C9.  When the gate is held, [cdrom_get_status] returns -1 at once, for
    any amount of fuel: the only call it makes is the failed non-blocking
    acquire, [syscall_gdrom_check_drive] is not called, the gate stays held
    and the cells behind [status] and [disc_type] keep their contents. *)
Theorem get_status_gate_held (fw : firmware) (w : world) (fuel : nat)
        (status_ptr disc_type_ptr : option Z) :
  gate_held w = true ->
  let r := run fw (cdrom_get_status fuel status_ptr disc_type_ptr) w in
  fst r = Done (-1, status_ptr, disc_type_ptr) /\
  snd r = log MutexLockIrqsafe w /\
  trace (snd r) = trace w ++ [MutexLockIrqsafe] /\
  n_drive (snd r) = n_drive w /\
  gate_held (snd r) = true.
Proof.
  intros Hg r. subst r. unfold cdrom_get_status.
  cbn [bind call run respond]. rewrite Hg. cbn [Z.eqb negb run fst snd].
  destruct w; simpl in *. repeat split; try reflexivity; exact Hg.
Qed.

Lemma get_status_gate_held_witness :
  gate_held (set_gate true world0) = true /\
  fst (run fw_xa (cdrom_get_status 0 (Some 5) (Some 9)) (set_gate true world0))
    = Done (-1, Some 5, Some 9).
Proof.
  split; [reflexivity | ].
  exact (proj1 (get_status_gate_held fw_xa (set_gate true world0) 0
                                     (Some 5) (Some 9) eq_refl)).
Defined.

(** ** CDDA playback *)

Lemma clamp_is_min (r : Z) : (if r >? 15 then 15 else r) = Z.min r 15.
Proof. destruct (Z.gtb_spec r 15); lia. Qed.

Lemma count_zero_forall (f : op -> bool) (Q : op -> Prop) (l : list op) :
  count f l = O -> Forall (fun o => f o = true -> Q o) l.
Proof.
  unfold count. induction l as [ | o l IH]; intros H; [constructor | ].
  simpl in H. destruct (f o) eqn:E; [discriminate | ].
  constructor; [intros; congruence | apply IH, H].
Qed.

(* All that one execute-command cycle sends is the caller's command with the
   caller's parameter block, and it starts by sending it. *)
Lemma exec_sends_only (fw : firmware) (fuel : nat) (cmd : Z) (param : cmd_param)
      (T : Z) (w : world) :
  gate_held w = false ->
  exists rest,
    trace (snd (run fw (cdrom_exec_cmd_timed fuel cmd param T) w)) =
      trace w ++ MutexLock :: SendCommand cmd param :: rest /\
    Forall (fun o => is_send o = true -> o = SendCommand cmd param) rest.
Proof.
  intros Hg.
  destruct (exec_events fw fuel cmd param T w Hg) as (rest & Htr & Hs & _).
  pose proof (submit_trace_only fw cmd param (n_send w) CD_CMD_RETRY_MAX) as Ho.
  assert (Hhd : exists more,
            submit_trace fw (n_send w) CD_CMD_RETRY_MAX cmd param =
            SendCommand cmd param :: more) by (eexists; reflexivity).
  destruct Hhd as [more Hhd]. rewrite Hhd in Htr, Ho.
  inversion Ho as [ | ? ? _ Htl]; subst.
  exists (more ++ rest). split; [exact Htr | ].
  apply Forall_app. split.
  - eapply Forall_impl; [ | exact Htl].
    intros o [-> | [-> | ->]] Hsend; [reflexivity | discriminate | discriminate].
  - apply count_zero_forall, Hs.
Qed.

(** C10.  For a valid mode, [cdrom_cdda_play] submits [CMD_PLAY] (tracks) or
    [CMD_PLAY2] (sectors) with a parameter block that carries [start] and
    [end] as given and [min(repeat, 15)] as the repeat count; every send of
    the call carries that block, so a repeat count above 15 reaches the
    controller as 15 and the call is not rejected for it. *)
Theorem cdda_play_clamps_repeat (fw : firmware) (w : world) (fuel : nat)
        (start end_ repeat_ mode : Z) :
  gate_held w = false ->
  mode = CDDA_TRACKS \/ mode = CDDA_SECTORS ->
  let block := PPlay (mk_play start end_ (Z.min repeat_ 15)) in
  let cmd := if mode =? CDDA_TRACKS then CMD_PLAY else CMD_PLAY2 in
  exists rest,
    trace (snd (run fw (cdrom_cdda_play fuel start end_ repeat_ mode) w)) =
      trace w ++ MutexLock :: SendCommand cmd block :: rest /\
    Forall (fun o => is_send o = true -> o = SendCommand cmd block) rest.
Proof.
  intros Hg Hmode block cmd. subst block cmd.
  unfold cdrom_cdda_play, cdrom_exec_cmd. rewrite clamp_is_min.
  destruct Hmode as [-> | ->]; cbn [Z.eqb CDDA_TRACKS CDDA_SECTORS Pos.eqb];
    apply exec_sends_only, Hg.
Qed.

Lemma cdda_play_clamps_repeat_witness :
  gate_held world0 = false /\
  (CDDA_SECTORS = CDDA_TRACKS \/ CDDA_SECTORS = CDDA_SECTORS) /\
  exists rest,
    trace (snd (run fw_xa (cdrom_cdda_play 2 150 900 100 CDDA_SECTORS) world0)) =
      MutexLock :: SendCommand CMD_PLAY2 (PPlay (mk_play 150 900 15)) :: rest.
Proof.
  split; [reflexivity | ]. split; [right; reflexivity | ].
  destruct (cdda_play_clamps_repeat fw_xa world0 2 150 900 100 CDDA_SECTORS
              eq_refl (or_intror eq_refl)) as (rest & Htr & _).
  exists rest. exact Htr.
Defined.

(** ** Locating the data track *)

Lemma TOC_LBA_low24 (n : Z) : TOC_LBA n = n mod 2 ^ 24.
Proof.
  unfold TOC_LBA. change 0x00ffffff with (Z.ones 24).
  apply Z.land_ones. lia.
Qed.

Lemma TOC_CTRL_nibble (n : Z) : TOC_CTRL n = (n / 2 ^ 28) mod 2 ^ 4.
Proof.
  unfold TOC_CTRL. rewrite Z.shiftr_land.
  change (Z.shiftr 0xf0000000 28) with (Z.ones 4).
  rewrite Z.land_ones by lia. rewrite Z.shiftr_div_pow2 by lia. reflexivity.
Qed.

Lemma TOC_TRACK_byte (n : Z) : TOC_TRACK n = (n / 2 ^ 16) mod 2 ^ 8.
Proof.
  unfold TOC_TRACK. rewrite Z.shiftr_land.
  change (Z.shiftr 0x00ff0000 16) with (Z.ones 8).
  rewrite Z.land_ones by lia. rewrite Z.shiftr_div_pow2 by lia. reflexivity.
Qed.

Lemma locate_loop_eq (fuel : nat) (toc : cd_toc) (f i : Z) :
  locate_loop fuel toc f i =
  if i >=? f then
    if TOC_CTRL (entry_at toc (uint32_dec i)) =? 4 then
      Some (TOC_LBA (entry_at toc (uint32_dec i)))
    else
      match fuel with
      | O => None
      | S fuel' => locate_loop fuel' toc f (uint32_dec i)
      end
  else Some 0.
Proof. destruct fuel; reflexivity. Qed.

Lemma uint32_dec_exact (i : Z) : 1 <= i <= 2 ^ 32 -> uint32_dec i = i - 1.
Proof. intros H. unfold uint32_dec. apply Z.mod_small. lia. Qed.

(* The scan from [i] down to [f], [k] tracks in all. *)
Lemma locate_loop_spec (toc : cd_toc) (f : Z) (k fuel : nat) (i : Z) :
  1 <= f ->
  i = f - 1 + Z.of_nat k ->
  i <= 2 ^ 32 ->
  (k <= fuel)%nat ->
  (exists t,
      f <= t <= i /\
      TOC_CTRL (entry_at toc (t - 1)) = 4 /\
      (forall j, t < j <= i -> TOC_CTRL (entry_at toc (j - 1)) <> 4) /\
      locate_loop fuel toc f i = Some (TOC_LBA (entry_at toc (t - 1)))) \/
  ((forall j, f <= j <= i -> TOC_CTRL (entry_at toc (j - 1)) <> 4) /\
   locate_loop fuel toc f i = Some 0).
Proof.
  intros Hf. revert fuel i.
  induction k as [ | k IH]; intros fuel i Hi Hmax Hfuel; rewrite locate_loop_eq.
  - right. destruct (Z.geb_spec i f); [lia | ].
    split; [intros; lia | reflexivity].
  - destruct (Z.geb_spec i f); [ | lia].
    rewrite uint32_dec_exact by lia.
    destruct (Z.eqb_spec (TOC_CTRL (entry_at toc (i - 1))) 4) as [E | E].
    + left. exists i. repeat split; try lia; try assumption; intros; lia.
    + destruct fuel as [ | fuel]; [lia | ].
      destruct (IH fuel (i - 1) ltac:(lia) ltac:(lia) ltac:(lia))
        as [(t & Ht & Hc & Hlast & Hres) | (Hnone & Hres)].
      * left. exists t. repeat split; try lia; try assumption.
        intros j Hj. destruct (Z.eq_dec j i) as [-> | Hne]; [exact E | ].
        apply Hlast. lia.
      * right. split; [ | exact Hres].
        intros j Hj. destruct (Z.eq_dec j i) as [-> | Hne]; [exact E | ].
        apply Hnone. lia.
Qed.

(** C6.  Given fuel for the 99 slots of the table, the scan always returns.
    Let [f] and [l] be the track numbers (bits 16-23) of the two pointer
    entries.  If [f < 1], [l > 99] or [f > l] the result is 0 whatever the
    entries hold.  Otherwise the result is the FAD, the low 24 bits of the
    packed entry, of the highest-numbered track in [f..l] whose control nibble
    (bits 28-31) is 4, and 0 if there is no such track. *)
Theorem locate_data_track_spec (fuel : nat) (toc : cd_toc) :
  (99 <= fuel)%nat ->
  let f := TOC_TRACK (first toc) in
  let l := TOC_TRACK (last toc) in
  (f < 1 \/ l > 99 \/ f > l -> cdrom_locate_data_track fuel toc = Some 0) /\
  (1 <= f -> l <= 99 -> f <= l ->
     (exists t,
         f <= t <= l /\
         TOC_CTRL (entry_at toc (t - 1)) = 4 /\
         (forall j, t < j <= l -> TOC_CTRL (entry_at toc (j - 1)) <> 4) /\
         cdrom_locate_data_track fuel toc
           = Some (entry_at toc (t - 1) mod 2 ^ 24)) \/
     ((forall j, f <= j <= l -> TOC_CTRL (entry_at toc (j - 1)) <> 4) /\
      cdrom_locate_data_track fuel toc = Some 0)) /\
  (forall n, TOC_CTRL n = (n / 2 ^ 28) mod 2 ^ 4).
Proof.
  intros Hfuel f l. unfold cdrom_locate_data_track. fold f l.
  split; [ | split; [ | exact TOC_CTRL_nibble]].
  - intros H.
    destruct (Z.ltb_spec f 1); [reflexivity | ].
    destruct (Z.gtb_spec l 99); [reflexivity | ].
    destruct (Z.gtb_spec f l); [reflexivity | lia].
  - intros H1 H2 H3.
    destruct (Z.ltb_spec f 1); [lia | ].
    destruct (Z.gtb_spec l 99); [lia | ].
    destruct (Z.gtb_spec f l); [lia | ]. cbn [orb].
    destruct (locate_loop_spec toc f (Z.to_nat (l - f + 1)) fuel l
                H1 ltac:(lia) ltac:(lia) ltac:(lia))
      as [(t & Ht & Hc & Hlast & Hres) | (Hnone & Hres)].
    + left. exists t. rewrite <- TOC_LBA_low24. repeat split; try lia; assumption.
    + right. split; assumption.
Qed.

(* The example of the specification: control nibbles 0, 4, 4 and disc
   addresses 100, 200, 300 for tracks 1 to 3 give 300. *)
Lemma locate_data_track_spec_witness :
  (99 <= 99)%nat /\
  cdrom_locate_data_track 99 toc_three_tracks = Some 300.
Proof.
  split; [lia | ].
  destruct (locate_data_track_spec 99 toc_three_tracks (Nat.le_refl 99))
    as (_ & H & _).
  destruct (H ltac:(vm_compute; discriminate) ltac:(vm_compute; discriminate)
              ltac:(vm_compute; discriminate))
    as [(t & Ht & Hc & Hlast & Hres) | (Hnone & _)].
  - change (TOC_TRACK (first toc_three_tracks)) with 1 in Ht.
    change (TOC_TRACK (last toc_three_tracks)) with 3 in Ht, Hlast.
    assert (Et : t = 3).
    { destruct (Z.eq_dec t 3) as [E | E]; [exact E | ].
      exfalso. apply (Hlast 3); [lia | reflexivity]. }
    rewrite Hres, Et. reflexivity.
  - exfalso. apply (Hnone 3); [vm_compute; split; discriminate | reflexivity].
Defined.

(** ** Re-initialisation *)

(** C4 (fails on the code).  The drive reports a failed command with primary
    error 6, "disc changed", at the first two checks of the initialise
    command, and completion from the third check on.  [cdrom_reinit_ex]
    runs one cycle, not three: it returns [CD_ERR_SYS] after a single
    submission and does not go on to the sector-format negotiation.  The
    condition of its do-while loop is never true, because
    [cdrom_exec_cmd_timed] cannot return [CD_ERR_DISC_CHG] (see C1). *)
Theorem reinit_disc_changed_not_retried :
  fw_check fw_disc_changed_twice 0 = (CD_CMD_FAILED, mk_chk_status 6 0 0 0) /\
  fw_check fw_disc_changed_twice 1 = (CD_CMD_FAILED, mk_chk_status 6 0 0 0) /\
  fst (fw_check fw_disc_changed_twice 2) = CD_CMD_COMPLETED /\
  run fw_disc_changed_twice
      (cdrom_reinit_ex 3 2 CD_READ_DEFAULT CD_TRACK_TYPE_DEFAULT (-1)) world0 =
  (Done CD_ERR_SYS,
   mk_world false 1 1 0 1 0 0
     [MutexLock; SendCommand CMD_INIT PNull; TimerMsGettime64; ExecServer;
      CheckCommand 1 zero_status; MutexUnlock]).
Proof.
  split; [reflexivity | ]. split; [reflexivity | ]. split; [reflexivity | ].
  vm_compute. reflexivity.
Qed.

(** ** The drive gate under two callers *)

Lemma lock_free_bind {A B} (p : prog A) (f : A -> prog B) :
  lock_free p -> (forall a, lock_free (f a)) -> lock_free (bind p f).
Proof.
  intros Hp Hf. induction p as [a | o k IH | ]; simpl.
  - apply Hf.
  - destruct Hp as [Ho Hk]. split; [exact Ho | ].
    intros r. apply IH, Hk.
  - exact I.
Qed.

Lemma lock_free_call (o : op) : is_drive_op o = true -> lock_free (call o).
Proof. intros Ho. split; [exact Ho | intros r; exact I]. Qed.

Lemma lock_free_submit_loop n cmd param id :
  lock_free (submit_loop n cmd param id).
Proof.
  revert id; induction n as [ | n IH]; intros id; cbn [submit_loop]; [exact I | ].
  apply lock_free_bind; [apply lock_free_call; reflexivity | intros r].
  destruct (negb (r =? 0)); [exact I | ].
  repeat (apply lock_free_bind; [apply lock_free_call; reflexivity | intros _]).
  apply IH.
Qed.

Lemma lock_free_poll_loop fuel id st T begin :
  lock_free (poll_loop fuel id st T begin).
Proof.
  induction fuel as [ | fuel IH]; cbn [poll_loop]; [exact I | ].
  apply lock_free_bind; [apply lock_free_call; reflexivity | intros _].
  apply lock_free_bind; [apply lock_free_call; reflexivity | intros [n s]].
  destruct (negb (n =? CD_CMD_PROCESSING) && negb (n =? CD_CMD_BUSY));
    [exact I | ].
  destruct (negb (T =? 0)).
  - apply lock_free_bind; [apply lock_free_call; reflexivity | intros now].
    destruct (uint64_sub now begin >=? T).
    + repeat (apply lock_free_bind; [apply lock_free_call; reflexivity | intros _]).
      exact I.
    + apply lock_free_bind; [apply lock_free_call; reflexivity | intros _].
      apply IH.
  - apply lock_free_bind; [apply lock_free_call; reflexivity | intros _].
    apply IH.
Qed.

(* A scoped region whose body does not touch the mutex: the caller enters
   through the blocking acquire and every path of it ends in the release
   followed by the return. *)
Lemma at_entry_scoped {A} (body : prog A) :
  lock_free body -> at_entry (mutex_lock_scoped body).
Proof.
  intros Hb. unfold mutex_lock_scoped, at_entry. simpl.
  split; [reflexivity | ]. intros _.
  induction body as [a | o k IH | ]; simpl.
  - left. split; [reflexivity | intros r; exact I].
  - destruct Hb as [Ho Hk]. right. split; [exact Ho | ].
    intros r. apply IH, Hk.
  - exact I.
Qed.

Lemma at_entry_exec_cmd_timed fuel cmd param T :
  at_entry (cdrom_exec_cmd_timed fuel cmd param T).
Proof.
  unfold cdrom_exec_cmd_timed. apply at_entry_scoped.
  apply lock_free_bind; [apply lock_free_submit_loop | intros id].
  destruct (id <=? 0); [exact I | ].
  apply lock_free_bind.
  - destruct (negb (T =? 0)); [apply lock_free_call; reflexivity | exact I].
  - intros begin. apply lock_free_bind; [apply lock_free_poll_loop | ].
    intros [n | ret]; exact I.
Qed.

Lemma tid_eqb_refl t : tid_eqb t t = true.
Proof. destruct t; reflexivity. Qed.

Lemma tid_eqb_eq a b : tid_eqb a b = true <-> a = b.
Proof. destruct a, b; simpl; split; congruence. Qed.

Lemma tid_eqb_sym a b : tid_eqb a b = tid_eqb b a.
Proof. destruct a, b; reflexivity. Qed.

Lemma in_cycle_snoc t l e : in_cycle t (l ++ [e]) = gate_event t (in_cycle t l) e.
Proof. unfold in_cycle. rewrite fold_left_app. reflexivity. Qed.

Lemma csteps_snoc_inv {A} (c c2 : conf A) l e :
  csteps c (l ++ [e]) c2 -> exists c1, csteps c l c1 /\ cstep c1 e c2.
Proof.
  revert c; induction l as [ | x l IH]; intros c H; simpl in H.
  - inversion H as [ | ? ? c1 ? ? Hs Hr]; subst. inversion Hr; subst.
    exists c. split; [constructor | exact Hs].
  - inversion H as [ | ? ? c1 ? ? Hs Hr]; subst.
    destruct (IH _ Hr) as (c1' & Hl & He).
    exists c1'. split; [econstructor; eassumption | exact He].
Qed.

Lemma snoc_split {X} (l l1 l2 : list X) (e x : X) :
  l ++ [e] = l1 ++ x :: l2 ->
  (l2 = [] /\ l = l1 /\ e = x) \/
  (exists l2', l2 = l2' ++ [e] /\ l = l1 ++ x :: l2').
Proof.
  intros H. destruct l2 as [ | y l2 _] using rev_ind.
  - left. apply app_inj_tail in H. destruct H; auto.
  - right. exists l2.
    change (l1 ++ x :: l2 ++ [y]) with (l1 ++ (x :: l2) ++ [y]) in H.
    rewrite app_assoc in H. apply app_inj_tail in H.
    destruct H as [-> ->]. split; reflexivity.
Qed.

(* A caller outside its cycle is unaffected by what another caller does. *)
Lemma gate_event_other t t' b o : tid_eqb t t' = false -> gate_event t' b (t, o) = b.
Proof. intros E. unfold gate_event; simpl. rewrite E. reflexivity. Qed.

Lemma gate_event_drive t b o : is_drive_op o = true -> gate_event t b (t, o) = b.
Proof.
  intros Ho. unfold gate_event; simpl. rewrite tid_eqb_refl.
  destruct o; try reflexivity; discriminate.
Qed.

(* One step keeps the invariant, and a call to the drive is only made by
   the caller that is inside its cycle. *)
Lemma gate_invariant_step {A} (c c' : conf A) l t o :
  gate_invariant c l ->
  cstep c (t, o) c' ->
  gate_invariant c' (l ++ [(t, o)]) /\
  (is_drive_op o = true -> in_cycle t l = true).
Proof.
  intros [Hph Hh] Hs.
  inversion Hs as [h h' ths t0 o0 k r Hth Hg]; subst.
  simpl in Hph, Hh.
  pose proof (Hph t) as Ht. rewrite Hth in Ht.
  assert (Hothers : forall t', tid_eqb t' t = false ->
            phase_ok (set_thread ths t (k r) t') (in_cycle t' (l ++ [(t, o)]))).
  { intros t' E. rewrite in_cycle_snoc, gate_event_other
      by (rewrite tid_eqb_sym; exact E).
    unfold set_thread. rewrite E. apply Hph. }
  destruct (in_cycle t l) eqn:Et; simpl in Ht.
  - destruct Ht as [[-> Hret] | [Ho Hk]].
    + (* the release *)
      destruct Hg as [-> ->]. split; [ | discriminate].
      split; simpl.
      * intros t'. destruct (tid_eqb t' t) eqn:E; [ | apply Hothers, E].
        apply tid_eqb_eq in E; subst t'.
        rewrite in_cycle_snoc. unfold gate_event, set_thread; simpl.
        rewrite tid_eqb_refl. simpl. right. apply Hret.
      * intros t'. rewrite in_cycle_snoc. split; [discriminate | ].
        destruct (tid_eqb t t') eqn:E.
        -- unfold gate_event; simpl. rewrite E. discriminate.
        -- rewrite gate_event_other by exact E. intros H. apply Hh in H.
           inversion H; subst. rewrite tid_eqb_refl in E. discriminate.
    + (* a call to the drive *)
      assert (h' = h) as -> by (destruct o; try discriminate; exact Hg).
      split; [ | reflexivity].
      split; simpl.
      * intros t'. destruct (tid_eqb t' t) eqn:E; [ | apply Hothers, E].
        apply tid_eqb_eq in E; subst t'.
        rewrite in_cycle_snoc, gate_event_drive by exact Ho.
        unfold set_thread. rewrite tid_eqb_refl, Et. apply Hk.
      * intros t'. rewrite in_cycle_snoc.
        destruct (tid_eqb t t') eqn:E.
        -- apply tid_eqb_eq in E; subst t'.
           rewrite gate_event_drive by exact Ho. apply Hh.
        -- rewrite gate_event_other by exact E. apply Hh.
  - destruct Ht as [[-> Hk] | []].
    (* the acquire *)
    destruct Hg as [-> ->]. split; [ | discriminate].
    split; simpl.
    + intros t'. destruct (tid_eqb t' t) eqn:E; [ | apply Hothers, E].
      apply tid_eqb_eq in E; subst t'.
      rewrite in_cycle_snoc. unfold gate_event, set_thread; simpl.
      rewrite tid_eqb_refl. simpl. apply Hk.
    + intros t'. rewrite in_cycle_snoc.
      destruct (tid_eqb t t') eqn:E.
      * apply tid_eqb_eq in E; subst t'.
        unfold gate_event; simpl. rewrite tid_eqb_refl. split; reflexivity.
      * rewrite gate_event_other by exact E. split.
        -- intros H. inversion H; subst. rewrite tid_eqb_refl in E. discriminate.
        -- intros H. apply Hh in H. discriminate.
Qed.

(* From two callers that each stand before a scoped region, every run keeps
   the invariant, and whenever a caller calls the drive it is inside its own
   cycle while the other one is outside. *)
Lemma gate_invariant_reachable {A} (p1 p2 : prog A) :
  at_entry p1 -> at_entry p2 ->
  forall l c,
    csteps (mk_conf None (two_callers p1 p2)) l c ->
    gate_invariant c l /\
    (forall l1 t o l2,
        l = l1 ++ (t, o) :: l2 ->
        is_drive_op o = true ->
        in_cycle t l1 = true /\ in_cycle (other t) l1 = false).
Proof.
  intros H1 H2 l. induction l as [ | [t o] l IH] using rev_ind; intros c Hc.
  - inversion Hc; subst. split.
    + split; simpl.
      * intros [ | ]; left; assumption.
      * intros t. split; discriminate.
    + intros l1 t o l2 E. destruct l1; discriminate.
  - apply csteps_snoc_inv in Hc. destruct Hc as (c1 & Hl & He).
    destruct (IH c1 Hl) as [Hinv Hpre].
    destruct (gate_invariant_step c1 c l t o Hinv He) as [Hinv' Hin].
    split; [exact Hinv' | ].
    intros l1 t' o' l2 E Ho'.
    apply snoc_split in E. destruct E as [(-> & -> & E) | (l2' & -> & ->)].
    + inversion E; subst t' o'. split; [apply Hin, Ho' | ].
      destruct (in_cycle (other t) l1) eqn:Eo; [ | reflexivity].
      destruct Hinv as [_ Hh].
      pose proof (proj2 (Hh t) (Hin Ho')) as Ha.
      pose proof (proj2 (Hh (other t)) Eo) as Hb.
      rewrite Ha in Hb. destruct t; discriminate.
    + eapply Hpre; [reflexivity | exact Ho'].
Qed.

(** C8.  Two callers run [cdrom_exec_cmd_timed] against one gate, with any
    arguments, any interleaving of their calls and any answers of the
    firmware.  After every history [l]: at most one caller is inside its
    cycle (has taken the gate and not released it); the gate is held by the
    caller that is inside and by nobody otherwise; every call to the firmware,
    the clock or the scheduler (the submission included) was made by a
    caller inside its own cycle while the other caller was outside; and a
    caller that has returned, by whichever path, is outside its cycle, so the
    gate it took has been released. *)
Theorem gate_mutual_exclusion
        (fuel1 : nat) (cmd1 : Z) (param1 : cmd_param) (timeout1 : Z)
        (fuel2 : nat) (cmd2 : Z) (param2 : cmd_param) (timeout2 : Z)
        (l : list (tid * op)) (c : conf Z) :
  csteps (mk_conf None
            (two_callers (cdrom_exec_cmd_timed fuel1 cmd1 param1 timeout1)
                         (cdrom_exec_cmd_timed fuel2 cmd2 param2 timeout2)))
         l c ->
  in_cycle T1 l && in_cycle T2 l = false /\
  (forall t, holder c = Some t <-> in_cycle t l = true) /\
  (forall l1 t o l2,
      l = l1 ++ (t, o) :: l2 ->
      is_drive_op o = true ->
      in_cycle t l1 = true /\ in_cycle (other t) l1 = false) /\
  (forall t a, thread_of c t = Ret a -> in_cycle t l = false).
Proof.
  intros Hc.
  destruct (gate_invariant_reachable _ _
              (at_entry_exec_cmd_timed fuel1 cmd1 param1 timeout1)
              (at_entry_exec_cmd_timed fuel2 cmd2 param2 timeout2) l c Hc)
    as [[Hph Hh] Hpre].
  split; [ | split; [exact Hh | split; [exact Hpre | ]]].
  - destruct (in_cycle T1 l) eqn:E1; [ | reflexivity].
    destruct (in_cycle T2 l) eqn:E2; [ | reflexivity].
    pose proof (proj2 (Hh T1) E1) as Ha.
    pose proof (proj2 (Hh T2) E2) as Hb.
    rewrite Ha in Hb. discriminate.
  - intros t a Hret. specialize (Hph t). rewrite Hret in Hph.
    destruct (in_cycle t l); [destruct Hph | reflexivity].
Qed.

(* The first caller runs a whole cycle (accepted with handle 1, completed
   at the first check) and only then the second one gets the gate and
   submits. *)
Lemma gate_mutual_exclusion_witness :
  let l := [(T1, MutexLock); (T1, SendCommand CMD_INIT PNull); (T1, ExecServer);
            (T1, CheckCommand 1 zero_status); (T1, MutexUnlock);
            (T2, MutexLock); (T2, SendCommand CMD_PLAY PNull)] in
  exists c,
    csteps (mk_conf None
              (two_callers (cdrom_exec_cmd_timed 1 CMD_INIT PNull 0)
                           (cdrom_exec_cmd_timed 1 CMD_PLAY PNull 0)))
           l c /\
    holder c = Some T2 /\
    in_cycle T1 [(T1, MutexLock)] = true /\
    in_cycle T2 [(T1, MutexLock)] = false.
Proof.
  intros l.
  assert (Hrun : exists c,
             csteps (mk_conf None
                       (two_callers (cdrom_exec_cmd_timed 1 CMD_INIT PNull 0)
                                    (cdrom_exec_cmd_timed 1 CMD_PLAY PNull 0)))
                    l c).
  { eexists. subst l.
    eapply csteps_cons;
      [eapply (cstep_call _ _ _ T1 MutexLock _ tt); [reflexivity | split; reflexivity] | ].
    eapply csteps_cons;
      [eapply (cstep_call _ _ _ T1 (SendCommand CMD_INIT PNull) _ 1);
       [reflexivity | reflexivity] | ].
    eapply csteps_cons;
      [eapply (cstep_call _ _ _ T1 ExecServer _ tt); [reflexivity | reflexivity] | ].
    eapply csteps_cons;
      [eapply (cstep_call _ _ _ T1 (CheckCommand 1 zero_status) _
                          (CD_CMD_COMPLETED, zero_status));
       [reflexivity | reflexivity] | ].
    eapply csteps_cons;
      [eapply (cstep_call _ _ _ T1 MutexUnlock _ tt);
       [reflexivity | split; reflexivity] | ].
    eapply csteps_cons;
      [eapply (cstep_call _ _ _ T2 MutexLock _ tt); [reflexivity | split; reflexivity] | ].
    eapply csteps_cons;
      [eapply (cstep_call _ _ _ T2 (SendCommand CMD_PLAY PNull) _ 1);
       [reflexivity | reflexivity] | ].
    apply csteps_nil. }
  destruct Hrun as [c Hc]. exists c. split; [exact Hc | ].
  destruct (gate_mutual_exclusion 1 CMD_INIT PNull 0 1 CMD_PLAY PNull 0 l c Hc)
    as (_ & Hh & Hpre & _).
  split; [apply Hh; reflexivity | ].
  apply (Hpre [(T1, MutexLock)] T1 (SendCommand CMD_INIT PNull)
              [(T1, ExecServer); (T1, CheckCommand 1 zero_status);
               (T1, MutexUnlock); (T2, MutexLock);
               (T2, SendCommand CMD_PLAY PNull)]);
    reflexivity.
Defined.

(** * Further properties of the driver *)

(** ** Packed TOC entries *)

Lemma TOC_ADR_nibble (n : Z) : TOC_ADR n = (n / 2 ^ 24) mod 2 ^ 4.
Proof.
  unfold TOC_ADR. rewrite Z.shiftr_land.
  change (Z.shiftr 0x0f000000 24) with (Z.ones 4).
  rewrite Z.land_ones by lia. rewrite Z.shiftr_div_pow2 by lia. reflexivity.
Qed.

(** X1.  The three access macros take a 32-bit TOC entry apart without loss:
    the entry is [TOC_CTRL * 2^28 + TOC_ADR * 2^24 + TOC_LBA], control and
    address are nibbles and the FAD has 24 bits.  [TOC_TRACK] reads bits 16 to
    23, which lie inside the FAD field. *)
Theorem toc_entry_fields (n : Z) :
  0 <= n < 2 ^ 32 ->
  n = TOC_CTRL n * 2 ^ 28 + TOC_ADR n * 2 ^ 24 + TOC_LBA n /\
  0 <= TOC_CTRL n < 16 /\
  0 <= TOC_ADR n < 16 /\
  0 <= TOC_LBA n < 2 ^ 24 /\
  TOC_TRACK n = TOC_LBA n / 2 ^ 16.
Proof.
  intros Hn.
  rewrite TOC_CTRL_nibble, TOC_ADR_nibble, TOC_LBA_low24, TOC_TRACK_byte.
  change (2 ^ 32) with 4294967296 in Hn.
  change (2 ^ 28) with 268435456. change (2 ^ 24) with 16777216.
  change (2 ^ 16) with 65536. change (2 ^ 8) with 256. change (2 ^ 4) with 16.
  Z.div_mod_to_equations. lia.
Qed.

Lemma toc_entry_fields_witness :
  0 <= 0x4100012c < 2 ^ 32 /\
  0x4100012c = TOC_CTRL 0x4100012c * 2 ^ 28 + TOC_ADR 0x4100012c * 2 ^ 24
               + TOC_LBA 0x4100012c.
Proof.
  assert (H : 0 <= 0x4100012c < 2 ^ 32) by (split; [discriminate | reflexivity]).
  split; [exact H | exact (proj1 (toc_entry_fields 0x4100012c H))].
Defined.

(** ** The data-track scan, continued *)

(** X2.  Given fuel for the 99 slots, [cdrom_locate_data_track] returns a
    value of at most 24 bits for every table, also for one whose pointer
    entries or track entries are garbage. *)
Theorem locate_data_track_range (fuel : nat) (toc : cd_toc) :
  (99 <= fuel)%nat ->
  exists v, cdrom_locate_data_track fuel toc = Some v /\ 0 <= v < 2 ^ 24.
Proof.
  intros Hfuel. unfold cdrom_locate_data_track.
  set (f := TOC_TRACK (first toc)). set (l := TOC_TRACK (last toc)).
  destruct (Z.ltb_spec f 1); [exists 0; split; [reflexivity | lia] | ].
  destruct (Z.gtb_spec l 99); [exists 0; split; [reflexivity | lia] | ].
  destruct (Z.gtb_spec f l); [exists 0; split; [reflexivity | lia] | ].
  cbn [orb].
  destruct (locate_loop_spec toc f (Z.to_nat (l - f + 1)) fuel l
              ltac:(lia) ltac:(lia) ltac:(lia) ltac:(lia))
    as [(t & _ & _ & _ & Hres) | (_ & Hres)]; rewrite Hres.
  - eexists. split; [reflexivity | ].
    rewrite TOC_LBA_low24. apply Z.mod_pos_bound. lia.
  - exists 0. split; [reflexivity | lia].
Qed.

Lemma locate_data_track_range_witness :
  (99 <= 120)%nat /\
  exists v, cdrom_locate_data_track 120 toc_three_tracks = Some v /\ 0 <= v < 2 ^ 24.
Proof.
  split; [lia | apply locate_data_track_range; lia].
Defined.

Lemma locate_loop_ext (toc toc' : cd_toc) (f l : Z) :
  1 <= f -> l <= 2 ^ 32 ->
  (forall t, f <= t <= l -> entry_at toc (t - 1) = entry_at toc' (t - 1)) ->
  forall fuel i, i <= l ->
    locate_loop fuel toc f i = locate_loop fuel toc' f i.
Proof.
  intros Hf Hl Hagree fuel.
  induction fuel as [ | fuel IH]; intros i Hi;
    [rewrite (locate_loop_eq O toc), (locate_loop_eq O toc')
    |rewrite (locate_loop_eq (S fuel) toc), (locate_loop_eq (S fuel) toc')];
    (destruct (Z.geb_spec i f); [ | reflexivity]);
    rewrite uint32_dec_exact by lia; rewrite (Hagree i) by lia;
    (destruct (TOC_CTRL (entry_at toc' (i - 1)) =? 4); [reflexivity | ]).
  - reflexivity.
  - apply IH. lia.
Qed.

(** X3.  The scan reads the two pointer entries and the track entries from
    [first] to [last] and nothing else: two tables that agree on these give
    the same result with the same fuel, whatever their other entries and
    their lead-out hold. *)
Theorem locate_data_track_reads_range (fuel : nat) (toc toc' : cd_toc) :
  first toc = first toc' ->
  last toc = last toc' ->
  (forall t, TOC_TRACK (first toc) <= t <= TOC_TRACK (last toc) ->
             entry_at toc (t - 1) = entry_at toc' (t - 1)) ->
  cdrom_locate_data_track fuel toc = cdrom_locate_data_track fuel toc'.
Proof.
  intros Hfirst Hlast Hagree. unfold cdrom_locate_data_track.
  rewrite <- Hfirst, <- Hlast.
  set (f := TOC_TRACK (first toc)) in *. set (l := TOC_TRACK (last toc)) in *.
  destruct (Z.ltb_spec f 1); [reflexivity | ].
  destruct (Z.gtb_spec l 99); [reflexivity | ].
  destruct (Z.gtb_spec f l); [reflexivity | ]. cbn [orb].
  apply (locate_loop_ext toc toc' f l); try lia. exact Hagree.
Qed.

(* The table of the example with a fourth, unused entry and another
   lead-out. *)
Lemma locate_data_track_reads_range_witness :
  cdrom_locate_data_track 99 toc_three_tracks =
  cdrom_locate_data_track 99
    (mk_toc [0x01000064; 0x410000c8; 0x4100012c; 0x41000777]
            0x01010000 0x41030000 0).
Proof.
  apply locate_data_track_reads_range; try reflexivity.
  intros t Ht.
  change (TOC_TRACK (first toc_three_tracks)) with 1 in Ht.
  change (TOC_TRACK (last toc_three_tracks)) with 3 in Ht.
  assert (E : t = 1 \/ t = 2 \/ t = 3) by lia.
  destruct E as [-> | [-> | ->]]; reflexivity.
Defined.

(** ** One execute-command cycle, continued *)

(* [m] rounds see a non-terminal status, within the budget if there is one,
   and the next check is terminal. *)
Lemma run_poll_terminal (fw : firmware) (m fuel : nat) (id : Z)
      (st : cd_cmd_chk_status) (T begin : Z) (w : world) :
  (m < fuel)%nat ->
  (forall i, (i < m)%nat -> nonterminal (fst (fw_check fw (n_check w + i)))) ->
  ~ nonterminal (fst (fw_check fw (n_check w + m))) ->
  (T <> 0 -> forall i, (i < m)%nat ->
             uint64_sub (fw_clock fw (n_clock w + i)) begin < T) ->
  run fw (poll_loop fuel id st T begin) w =
  (Done (inl (fst (fw_check fw (n_check w + m)))),
   bump w (gate_held w) 0 (S m) 0 (if T =? 0 then 0 else m) 0 0
        (poll_rounds m id st (negb (T =? 0))
         ++ [ExecServer; CheckCommand id st])).
Proof.
  revert fuel w; induction m as [ | m IH]; intros fuel w Hf Hnt Hterm Hbudget;
    (destruct fuel as [ | fuel]; [lia | ]);
    cbn [poll_loop bind call run respond];
    replace (n_check (log ExecServer w)) with (n_check w) by reflexivity.
  - rewrite Nat.add_0_r in *.
    destruct (fw_check fw (n_check w)) as [n s]. simpl in Hterm |- *.
    destruct (negb (n =? CD_CMD_PROCESSING) && negb (n =? CD_CMD_BUSY)) eqn:En.
    + cbn [run]. destruct (T =? 0); destruct w; world_eq.
    + exfalso. apply Hterm. unfold nonterminal.
      apply andb_false_iff in En. destruct En as [En | En];
        apply negb_false_iff, Z.eqb_eq in En; [left | right]; exact En.
  - pose proof (Hnt O (Nat.lt_0_succ _)) as H0. rewrite Nat.add_0_r in H0.
    destruct (fw_check fw (n_check w)) as [n s] eqn:E. simpl in H0.
    rewrite (nonterminal_test _ H0).
    destruct (T =? 0) eqn:ET; cbn [negb bind call run respond].
    + rewrite IH.
      * replace (n_check (log ThdPass (tick_check (log (CheckCommand id st)
                    (log ExecServer w)))) + m)%nat
          with (n_check w + S m)%nat by (destruct w; simpl; lia).
        destruct w. world_eq.
      * lia.
      * intros i Hi. specialize (Hnt (S i) ltac:(lia)).
        destruct w; simpl in *. rewrite Nat.add_succ_r in Hnt. exact Hnt.
      * destruct w; simpl in *. rewrite Nat.add_succ_r in Hterm. exact Hterm.
      * intros HT. apply Z.eqb_eq in ET. contradiction.
    + apply Z.eqb_neq in ET.
      replace (n_clock (tick_check (log (CheckCommand id st) (log ExecServer w))))
        with (n_clock w) by reflexivity.
      pose proof (Hbudget ET O (Nat.lt_0_succ _)) as Hb0.
      rewrite Nat.add_0_r in Hb0.
      destruct (uint64_sub (fw_clock fw (n_clock w)) begin >=? T) eqn:G;
        [rewrite Z.geb_leb in G; apply Z.leb_le in G; lia | ].
      cbn [bind call run respond]. rewrite IH.
      * replace (n_check (log ThdPass (tick_clock (log TimerMsGettime64
                    (tick_check (log (CheckCommand id st)
                       (log ExecServer w)))))) + m)%nat
          with (n_check w + S m)%nat by (destruct w; simpl; lia).
        destruct w. world_eq.
      * lia.
      * intros i Hi. specialize (Hnt (S i) ltac:(lia)).
        destruct w; simpl in *. rewrite Nat.add_succ_r in Hnt. exact Hnt.
      * destruct w; simpl in *. rewrite Nat.add_succ_r in Hterm. exact Hterm.
      * intros _ i Hi. specialize (Hbudget ET (S i) ltac:(lia)).
        destruct w; simpl in *. rewrite Nat.add_succ_r in Hbudget. exact Hbudget.
Qed.

Lemma classify_zero_is_outcome (n : Z) :
  classify_result n zero_status = outcome_of_check n.
Proof. reflexivity. Qed.

(** X4.  A cycle that ends normally.  The gate is free, the command is
    accepted with a positive handle at attempt [j], the first [m] checks
    report processing or busy (within the budget, if there is one) and check
    [m] reports a terminal status [n].  Then the call returns ok for
    completed or streaming, no-active for not-found and system-error for
    anything else, after exactly [j + 1] sends and [m + 1] checks, without an
    abort, and with the gate released. *)
Theorem exec_cmd_completes (fw : firmware) (w : world) (fuel : nat)
        (cmd : Z) (param : cmd_param) (T : Z) (j m : nat) :
  gate_held w = false ->
  (j < CD_CMD_RETRY_MAX)%nat ->
  (forall i, (i < j)%nat -> fw_send fw (n_send w + i) = 0) ->
  0 < fw_send fw (n_send w + j) ->
  (m < fuel)%nat ->
  (forall i, (i < m)%nat -> nonterminal (fst (fw_check fw (n_check w + i)))) ->
  ~ nonterminal (fst (fw_check fw (n_check w + m))) ->
  (T <> 0 -> forall i, (i < m)%nat ->
     uint64_sub (fw_clock fw (n_clock w + 1 + i)) (fw_clock fw (n_clock w)) < T) ->
  run fw (cdrom_exec_cmd_timed fuel cmd param T) w =
  (Done (outcome_of_check (fst (fw_check fw (n_check w + m)))),
   bump w false (S j) (S m) 0 (if T =? 0 then 0 else S m) 0 0
        (completed_cycle j m cmd param (fw_send fw (n_send w + j))
                         (negb (T =? 0)))).
Proof.
  intros Hg Hj Hz Hpos Hf Hnt Hterm Hbudget.
  rewrite (run_exec_cmd_timed fw _ _ _ _ _ Hg). cbv zeta.
  assert (Hne : fw_send fw (n_send w + j) <> 0) by lia.
  destruct (submit_first_ok fw (n_send w) CD_CMD_RETRY_MAX j cmd param 0 Hj Hz Hne)
    as [Ht Hi].
  rewrite Hi. destruct (fw_send fw (n_send w + j) <=? 0) eqn:E;
    [apply Z.leb_le in E; lia | ].
  unfold completed_cycle.
  destruct (T =? 0) eqn:ET; cbn [negb].
  - rewrite (run_poll_terminal fw m).
    + replace (n_check (after_submit fw w cmd param)) with (n_check w)
        by (unfold after_submit; destruct w; simpl; lia).
      rewrite classify_zero_is_outcome, ET.
      unfold after_submit. rewrite Ht, count_app, failed_attempts_sends.
      destruct w. world_eq.
      repeat (rewrite <- !app_assoc; simpl). reflexivity.
    + exact Hf.
    + intros i Hi'.
      replace (n_check (after_submit fw w cmd param)) with (n_check w)
        by (unfold after_submit; destruct w; simpl; lia).
      apply Hnt, Hi'.
    + replace (n_check (after_submit fw w cmd param)) with (n_check w)
        by (unfold after_submit; destruct w; simpl; lia).
      exact Hterm.
    + intros HT. apply Z.eqb_eq in ET. contradiction.
  - apply Z.eqb_neq in ET.
    rewrite (run_poll_terminal fw m).
    + replace (n_check (tick_clock (log TimerMsGettime64
                 (after_submit fw w cmd param)))) with (n_check w)
        by (unfold after_submit; destruct w; simpl; lia).
      rewrite classify_zero_is_outcome.
      apply Z.eqb_neq in ET. rewrite ET.
      unfold after_submit. rewrite Ht, count_app, failed_attempts_sends.
      destruct w. world_eq.
      repeat (rewrite <- !app_assoc; simpl). reflexivity.
    + exact Hf.
    + intros i Hi'.
      replace (n_check (tick_clock (log TimerMsGettime64
                 (after_submit fw w cmd param)))) with (n_check w)
        by (unfold after_submit; destruct w; simpl; lia).
      apply Hnt, Hi'.
    + replace (n_check (tick_clock (log TimerMsGettime64
                 (after_submit fw w cmd param)))) with (n_check w)
        by (unfold after_submit; destruct w; simpl; lia).
      exact Hterm.
    + intros _ i Hi'.
      replace (n_clock (tick_clock (log TimerMsGettime64
                 (after_submit fw w cmd param))) + i)%nat
        with (n_clock w + 1 + i)%nat
        by (unfold after_submit; destruct w; simpl; lia).
      apply (Hbudget ET), Hi'.
Qed.

(* One refusal, two checks that report processing, completion at the third
   check, well inside a budget of 1000 ms. *)
Lemma exec_cmd_completes_witness :
  gate_held world0 = false /\
  run fw_slow_ok (cdrom_exec_cmd_timed 4 CMD_INIT PNull 1000) world0 =
  (Done CD_ERR_OK,
   bump world0 false 2 3 0 3 0 0 (completed_cycle 1 2 CMD_INIT PNull 5 true)).
Proof.
  split; [reflexivity | ].
  apply (exec_cmd_completes fw_slow_ok world0 4 CMD_INIT PNull 1000 1 2).
  - reflexivity.
  - unfold CD_CMD_RETRY_MAX; lia.
  - intros i Hi. destruct i; [reflexivity | lia].
  - reflexivity.
  - lia.
  - intros i Hi. do 2 (destruct i; [left; reflexivity | ]). lia.
  - intros [H | H]; discriminate.
  - intros _ i Hi. do 2 (destruct i; [reflexivity | ]). lia.
Defined.

(** X5.  A negative answer of [syscall_gdrom_send_command] is not retried
    and not polled: if attempt [j] is the first one with a non-zero answer
    and that answer is negative, the call returns [CD_ERR_SYS] right after
    that send, having made no check and no abort, with the gate released. *)
Theorem exec_cmd_negative_handle (fw : firmware) (w : world) (fuel : nat)
        (cmd : Z) (param : cmd_param) (T : Z) (j : nat) :
  gate_held w = false ->
  (j < CD_CMD_RETRY_MAX)%nat ->
  (forall i, (i < j)%nat -> fw_send fw (n_send w + i) = 0) ->
  fw_send fw (n_send w + j) < 0 ->
  run fw (cdrom_exec_cmd_timed fuel cmd param T) w =
  (Done CD_ERR_SYS,
   bump w false (S j) 0 0 0 0 0
        (MutexLock :: failed_attempts j cmd param
         ++ [SendCommand cmd param; MutexUnlock])).
Proof.
  intros Hg Hj Hz Hneg.
  rewrite (run_exec_cmd_timed fw _ _ _ _ _ Hg). cbv zeta.
  assert (Hne : fw_send fw (n_send w + j) <> 0) by lia.
  destruct (submit_first_ok fw (n_send w) CD_CMD_RETRY_MAX j cmd param 0 Hj Hz Hne)
    as [Ht Hi].
  rewrite Hi. destruct (fw_send fw (n_send w + j) <=? 0) eqn:E;
    [ | apply Z.leb_gt in E; lia].
  unfold after_submit. rewrite Ht, count_app, failed_attempts_sends.
  destruct w. world_eq.
  repeat (rewrite <- !app_assoc; simpl). reflexivity.
Qed.

Lemma exec_cmd_negative_handle_witness :
  gate_held world0 = false /\
  run fw_negative_handle (cdrom_exec_cmd_timed 3 CMD_INIT PNull 0) world0 =
  (Done CD_ERR_SYS,
   bump world0 false 1 0 0 0 0 0
        [MutexLock; SendCommand CMD_INIT PNull; MutexUnlock]).
Proof.
  split; [reflexivity | ].
  apply (exec_cmd_negative_handle fw_negative_handle world0 3 CMD_INIT PNull 0 0).
  - reflexivity.
  - unfold CD_CMD_RETRY_MAX; lia.
  - intros i Hi. lia.
  - reflexivity.
Defined.

(** X6.  The gate is paired with the call.  Started with the gate free, a
    call never blocks on it; whenever it returns, on any path and with any
    result, the gate is free again; and while it has not returned (the fuel
    ran out in the poll loop) it still holds the gate. *)
Theorem exec_cmd_gate_balance (fw : firmware) (w : world) (fuel : nat)
        (cmd : Z) (param : cmd_param) (T : Z) :
  gate_held w = false ->
  let r := run fw (cdrom_exec_cmd_timed fuel cmd param T) w in
  match fst r with
  | Done _ => gate_held (snd r) = false
  | Fuel => gate_held (snd r) = true
  | Blocked => False
  end.
Proof.
  intros Hg r. subst r.
  rewrite (run_exec_cmd_timed fw _ _ _ _ _ Hg). cbv zeta.
  destruct (submit_id fw (n_send w) CD_CMD_RETRY_MAX 0 <=? 0); [reflexivity | ].
  match goal with |- context [run fw (poll_loop fuel ?i ?s T ?b) ?w2] =>
    destruct (poll_loop_shape fw fuel i s T b w2)
      as (res & c & a & t & evs & Hrun & _ & Hb & _); rewrite Hrun
  end.
  destruct res as [[n | ret] | | ]; cbn [fst snd]; try reflexivity.
  - destruct (negb (T =? 0)); reflexivity.
  - contradiction.
Qed.

Lemma exec_cmd_gate_balance_witness :
  gate_held world0 = false /\
  gate_held (snd (run fw_stalled (cdrom_exec_cmd_timed 5 CMD_INIT PNull 100) world0))
    = false /\
  gate_held (snd (run fw_stalled (cdrom_exec_cmd_timed 5 CMD_INIT PNull 0) world0))
    = true.
Proof.
  split; [reflexivity | ]. split.
  - pose proof (exec_cmd_gate_balance fw_stalled world0 5 CMD_INIT PNull 100 eq_refl)
      as H.
    cbv zeta in H.
    replace (fst (run fw_stalled (cdrom_exec_cmd_timed 5 CMD_INIT PNull 100) world0))
      with (@Done Z CD_ERR_TIMEOUT) in H by (vm_compute; reflexivity).
    exact H.
  - pose proof (exec_cmd_gate_balance fw_stalled world0 5 CMD_INIT PNull 0 eq_refl)
      as H.
    cbv zeta in H.
    replace (fst (run fw_stalled (cdrom_exec_cmd_timed 5 CMD_INIT PNull 0) world0))
      with (@Fuel Z) in H by (vm_compute; reflexivity).
    exact H.
Defined.

(** X7.  Whatever the firmware answers and reports, a call that returns
    returns ok, no-active, system-error or timeout: never
    [CD_ERR_NO_DISC], [CD_ERR_DISC_CHG] or [CD_ERR_ABORTED].  (The switch on
    [status.err1] reads the zero-initialised structure.) *)
Theorem exec_cmd_result_range (fw : firmware) (w : world) (fuel : nat)
        (cmd : Z) (param : cmd_param) (T r : Z) :
  gate_held w = false ->
  fst (run fw (cdrom_exec_cmd_timed fuel cmd param T) w) = Done r ->
  (r = CD_ERR_OK \/ r = CD_ERR_NO_ACTIVE \/ r = CD_ERR_SYS \/ r = CD_ERR_TIMEOUT) /\
  r <> CD_ERR_NO_DISC /\ r <> CD_ERR_DISC_CHG /\ r <> CD_ERR_ABORTED.
Proof.
  intros Hg Hr.
  pose proof (exec_cmd_timed_outcomes fw w fuel cmd param T r Hg Hr) as H.
  split; [exact H | ].
  destruct H as [-> | [-> | [-> | ->]]]; repeat split; discriminate.
Qed.

Lemma exec_cmd_result_range_witness :
  gate_held world0 = false /\
  fst (run fw_disc_changed_twice (cdrom_exec_cmd_timed 2 CMD_INIT PNull 0) world0)
    = Done CD_ERR_SYS /\
  CD_ERR_SYS <> CD_ERR_DISC_CHG.
Proof.
  split; [reflexivity | ].
  assert (Hr : fst (run fw_disc_changed_twice
                        (cdrom_exec_cmd_timed 2 CMD_INIT PNull 0) world0)
               = Done CD_ERR_SYS) by (vm_compute; reflexivity).
  split; [exact Hr | ].
  exact (proj1 (proj2 (proj2 (exec_cmd_result_range
           fw_disc_changed_twice world0 2 CMD_INIT PNull 0 CD_ERR_SYS
           eq_refl Hr)))).
Defined.

(* As long as every reading is within the budget the poll loop neither
   aborts nor leaves through its timeout return. *)
Lemma poll_loop_within_budget (fw : firmware) (fuel : nat) (id : Z)
      (st : cd_cmd_chk_status) (T begin : Z) (w : world) :
  (forall i, uint64_sub (fw_clock fw (n_clock w + i)) begin < T) ->
  exists res c t evs,
    run fw (poll_loop fuel id st T begin) w =
    (res, bump w (gate_held w) 0 c 0 t 0 0 evs) /\
    count is_abort evs = O /\
    forall r, res <> Done (inr r).
Proof.
  revert w; induction fuel as [ | fuel IH]; intros w Hb.
  - exists Fuel, O, O, []. simpl. rewrite bump_nil.
    repeat split; try reflexivity; discriminate.
  - cbn [poll_loop bind call run respond].
    replace (n_check (log ExecServer w)) with (n_check w) by reflexivity.
    destruct (fw_check fw (n_check w)) as [n s].
    destruct (negb (n =? CD_CMD_PROCESSING) && negb (n =? CD_CMD_BUSY)).
    + exists (Done (inl n)), 1%nat, O, [ExecServer; CheckCommand id st].
      cbn [run]. split; [destruct w; world_eq | ].
      split; [reflexivity | discriminate].
    + destruct (T =? 0) eqn:ET; cbn [negb bind call run respond].
      * match goal with |- context [run fw (poll_loop fuel id st T begin) ?w'] =>
          destruct (IH w') as (res & c & t & evs & Hrun & Ha & Hr)
        end.
        { intros i. specialize (Hb i). destruct w; simpl in *. exact Hb. }
        rewrite Hrun.
        exists res, (S c), t, ([ExecServer; CheckCommand id st; ThdPass] ++ evs).
        split; [destruct w; world_eq | ].
        rewrite count_app. split; [exact Ha | exact Hr].
      * replace (n_clock (tick_check (log (CheckCommand id st) (log ExecServer w))))
          with (n_clock w) by reflexivity.
        pose proof (Hb O) as Hb0. rewrite Nat.add_0_r in Hb0.
        destruct (uint64_sub (fw_clock fw (n_clock w)) begin >=? T) eqn:G;
          [rewrite Z.geb_leb in G; apply Z.leb_le in G; lia | ].
        cbn [bind call run respond].
        match goal with |- context [run fw (poll_loop fuel id st T begin) ?w'] =>
          destruct (IH w') as (res & c & t & evs & Hrun & Ha & Hr)
        end.
        { intros i. specialize (Hb (S i)). destruct w; simpl in *.
          rewrite Nat.add_succ_r in Hb. exact Hb. }
        rewrite Hrun.
        exists res, (S c), (S t),
               ([ExecServer; CheckCommand id st; TimerMsGettime64; ThdPass] ++ evs).
        split; [destruct w; world_eq | ].
        rewrite count_app. split; [exact Ha | exact Hr].
Qed.

(** X8.  No early timeout.  If every clock reading taken after the start
    of the poll shows an elapsed time below the budget, the call does not
    return [CD_ERR_TIMEOUT] and makes no [syscall_gdrom_abort_command] call,
    whatever the firmware answers and however long it polls. *)
Theorem exec_cmd_no_early_timeout (fw : firmware) (w : world) (fuel : nat)
        (cmd : Z) (param : cmd_param) (T : Z) :
  gate_held w = false ->
  (forall i, uint64_sub (fw_clock fw (n_clock w + 1 + i)) (fw_clock fw (n_clock w)) < T) ->
  let r := run fw (cdrom_exec_cmd_timed fuel cmd param T) w in
  fst r <> Done CD_ERR_TIMEOUT /\ n_abort (snd r) = n_abort w.
Proof.
  intros Hg Hb r. subst r.
  rewrite (run_exec_cmd_timed fw _ _ _ _ _ Hg). cbv zeta.
  destruct (submit_id fw (n_send w) CD_CMD_RETRY_MAX 0 <=? 0).
  - split; [discriminate | ]. unfold after_submit; destruct w; simpl. lia.
  - destruct (T =? 0) eqn:ET; cbn [negb].
    + apply Z.eqb_eq in ET. exfalso.
      specialize (Hb O). unfold uint64_sub in Hb.
      pose proof (Z.mod_pos_bound
                    (fw_clock fw (n_clock w + 1 + 0) - fw_clock fw (n_clock w))
                    (2 ^ 64) ltac:(lia)).
      lia.
    + match goal with |- context [run fw (poll_loop fuel ?i ?s T ?b) ?w2] =>
        destruct (poll_loop_within_budget fw fuel i s T b w2)
          as (res & c & t & evs & Hrun & _ & Hr)
      end.
      { intros i. specialize (Hb i).
        replace (n_clock (tick_clock (log TimerMsGettime64
                   (after_submit fw w cmd param))) + i)%nat
          with (n_clock w + 1 + i)%nat
          by (unfold after_submit; destruct w; simpl; lia).
        exact Hb. }
      rewrite Hrun.
      destruct res as [[n | ret] | | ]; cbn [fst snd].
      * split.
        -- rewrite classify_zero_status.
           destruct ((n =? CD_CMD_COMPLETED) || (n =? CD_CMD_STREAMING));
             [discriminate | ].
           destruct (n =? CD_CMD_NOT_FOUND); discriminate.
        -- unfold after_submit; destruct w; simpl. lia.
      * exfalso. apply (Hr ret). reflexivity.
      * split; [discriminate | ]. unfold after_submit; destruct w; simpl. lia.
      * split; [discriminate | ]. unfold after_submit; destruct w; simpl. lia.
Qed.

Lemma exec_cmd_no_early_timeout_witness :
  gate_held world0 = false /\
  fst (run fw_same_ms (cdrom_exec_cmd_timed 6 CMD_INIT PNull 10) world0)
    <> Done CD_ERR_TIMEOUT /\
  n_abort (snd (run fw_same_ms (cdrom_exec_cmd_timed 6 CMD_INIT PNull 10) world0))
    = n_abort world0.
Proof.
  split; [reflexivity | ].
  apply (exec_cmd_no_early_timeout fw_same_ms world0 6 CMD_INIT PNull 10 eq_refl).
  intros i. reflexivity.
Defined.

(** ** The status query with the gate free *)

Lemma run_check_drive_loop (fw : firmware) (k fuel : nat)
      (params : cd_check_drive_params) (w : world) :
  (k < fuel)%nat ->
  (forall i, (i < k)%nat -> fst (fw_check_drive fw (n_drive w + i)) = CD_CMD_BUSY) ->
  fst (fw_check_drive fw (n_drive w + k)) <> CD_CMD_BUSY ->
  run fw (check_drive_loop fuel params) w =
  (Done (fst (fw_check_drive fw (n_drive w + k))),
   bump w (gate_held w) 0 0 0 0 (S k) 0
        (concat (repeat [CheckDrive params; ThdPass] k) ++ [CheckDrive params])).
Proof.
  revert fuel w; induction k as [ | k IH]; intros fuel w Hf Hbusy Hrv;
    (destruct fuel as [ | fuel]; [lia | ]);
    cbn [check_drive_loop bind call run respond].
  - rewrite Nat.add_0_r in Hrv |- *.
    destruct (fw_check_drive fw (n_drive w)) as [rv p]. simpl in Hrv |- *.
    apply Z.eqb_neq in Hrv. rewrite Hrv. cbn [negb run].
    destruct w. world_eq.
  - pose proof (Hbusy O (Nat.lt_0_succ _)) as H0. rewrite Nat.add_0_r in H0.
    destruct (fw_check_drive fw (n_drive w)) as [rv p] eqn:E. simpl in H0.
    subst rv. cbn [Z.eqb CD_CMD_BUSY Pos.eqb negb bind call run respond].
    rewrite IH.
    + replace (n_drive (log ThdPass (tick_drive (log (CheckDrive params) w))) + k)%nat
        with (n_drive w + S k)%nat by (destruct w; simpl; lia).
      destruct w. world_eq.
    + lia.
    + intros i Hi. specialize (Hbusy (S i) ltac:(lia)).
      destruct w; simpl in *. rewrite Nat.add_succ_r in Hbusy. exact Hbusy.
    + destruct w; simpl in *. rewrite Nat.add_succ_r in Hrv. exact Hrv.
Qed.

Lemma busy_rounds_concat (k : nat) :
  concat (repeat [CheckDrive (mk_check_drive 0 0); ThdPass] k) = busy_rounds k.
Proof. induction k as [ | k IH]; [reflexivity | simpl; rewrite IH; reflexivity]. Qed.

(** X9.  [cdrom_get_status] with the gate free.  While
    [syscall_gdrom_check_drive] answers [CD_CMD_BUSY] the call yields and
    asks again; the first other answer [rv] is returned.  The gate is taken
    for the loop and released before the out-parameters are written.  A NULL
    pointer is left alone; a non-NULL [status] and [disc_type] receive -1
    when [rv] is negative and otherwise the fields of the local [params],
    which are the zeros it was initialised with since it is handed to the
    syscall by value. *)
Theorem get_status_gate_free (fw : firmware) (w : world) (fuel k : nat)
        (status_ptr disc_type_ptr : option Z) :
  gate_held w = false ->
  (k < fuel)%nat ->
  (forall i, (i < k)%nat -> fst (fw_check_drive fw (n_drive w + i)) = CD_CMD_BUSY) ->
  fst (fw_check_drive fw (n_drive w + k)) <> CD_CMD_BUSY ->
  let rv := fst (fw_check_drive fw (n_drive w + k)) in
  let v := if rv >=? 0 then 0 else -1 in
  run fw (cdrom_get_status fuel status_ptr disc_type_ptr) w =
  (Done (rv, store status_ptr v, store disc_type_ptr v),
   bump w false 0 0 0 0 (S k) 0
        (MutexLockIrqsafe :: busy_rounds k
         ++ [CheckDrive (mk_check_drive 0 0); MutexUnlock])).
Proof.
  intros Hg Hf Hbusy Hrv rv v. subst rv v.
  unfold cdrom_get_status. cbn [bind call run respond]. rewrite Hg.
  cbn [Z.eqb negb]. rewrite run_bind.
  rewrite (run_check_drive_loop fw k) by
    (try exact Hf; try exact Hbusy; exact Hrv).
  replace (n_drive (set_gate true (log MutexLockIrqsafe w))) with (n_drive w)
    by reflexivity.
  cbn [bind call run respond]. rewrite busy_rounds_concat.
  destruct (fst (fw_check_drive fw (n_drive w + k)) >=? 0);
    cbn [run status disc_type]; destruct w; world_eq.
Qed.

(* Two busy answers, then 0; [status] is a cell, [disc_type] is NULL. *)
Lemma get_status_gate_free_witness :
  gate_held world0 = false /\
  run fw_busy_twice (cdrom_get_status 5 (Some 9) None) world0 =
  (Done (0, Some 0, None),
   bump world0 false 0 0 0 0 3 0
        (MutexLockIrqsafe :: busy_rounds 2
         ++ [CheckDrive (mk_check_drive 0 0); MutexUnlock])).
Proof.
  split; [reflexivity | ].
  apply (get_status_gate_free fw_busy_twice world0 5 2 (Some 9) None).
  - reflexivity.
  - lia.
  - intros i Hi. do 2 (destruct i; [reflexivity | ]). lia.
  - discriminate.
Defined.

(** ** Sector-format negotiation, continued *)

(** X10.  No "use default" sentinel crosses into the firmware.  For every
    argument triple, [cdrom_change_datatype] makes exactly one set-mode call;
    the structure it passes has [RW = 0] and none of its three fields is -1;
    the drive is queried at most once, before the set-mode call, and only
    when the track type is the default and the sector size is not 2352; the
    call returns what the set-mode syscall returned and leaves the gate
    free. *)
Theorem change_datatype_resolves_all (fw : firmware) (w : world) (sp ty ss : Z) :
  gate_held w = false ->
  let r := run fw (cdrom_change_datatype sp ty ss) w in
  exists pre p,
    trace (snd r) = trace w ++ MutexLock :: pre ++ [SectorMode p; MutexUnlock] /\
    (pre = [] \/
     (pre = [CheckDrive (mk_check_drive 0 0)] /\
      ty = CD_TRACK_TYPE_DEFAULT /\ ss <> 2352)) /\
    RW p = 0 /\
    sector_part p <> CD_READ_DEFAULT /\
    track_type p <> CD_TRACK_TYPE_DEFAULT /\
    sector_size p <> -1 /\
    fst r = Done (fw_sector_mode fw (n_mode w)) /\
    n_mode (snd r) = S (n_mode w) /\
    gate_held (snd r) = false.
Proof.
  intros Hg r. subst r. rewrite (run_change_datatype fw _ _ _ _ Hg).
  cbn [fst snd]. unfold change_datatype_events, queries_drive, resolve_sector_mode.
  destruct (Z.eqb_spec ss 2352) as [Es | Es]; cbn [negb andb].
  - exists [], (mk_sec_mode 0
              (if sp =? CD_READ_DEFAULT then CD_READ_WHOLE_SECTOR else sp)
              (if ty =? CD_TRACK_TYPE_DEFAULT then CD_TRACK_TYPE_ANY else ty) ss).
    split; [reflexivity | ]. split; [left; reflexivity | ].
    cbn [RW sector_part track_type sector_size].
    repeat split; try reflexivity.
    + destruct (Z.eqb_spec sp CD_READ_DEFAULT); [discriminate | assumption].
    + destruct (Z.eqb_spec ty CD_TRACK_TYPE_DEFAULT); [discriminate | assumption].
    + lia.
    + destruct w; simpl; lia.
  - destruct (Z.eqb_spec ty CD_TRACK_TYPE_DEFAULT) as [Et | Et].
    + exists [CheckDrive (mk_check_drive 0 0)],
             (mk_sec_mode 0
                (if sp =? CD_READ_DEFAULT then CD_READ_DATA_AREA else sp)
                CD_TRACK_TYPE_MODE1 (if ss =? -1 then 2048 else ss)).
      split; [reflexivity | ]. split; [right; repeat split; assumption | ].
      cbn [RW sector_part track_type sector_size].
      repeat split; try reflexivity; try discriminate.
      * destruct (Z.eqb_spec sp CD_READ_DEFAULT); [discriminate | assumption].
      * destruct (Z.eqb_spec ss (-1)); [discriminate | assumption].
      * destruct w; simpl; lia.
    + exists [], (mk_sec_mode 0
                (if sp =? CD_READ_DEFAULT then CD_READ_DATA_AREA else sp)
                ty (if ss =? -1 then 2048 else ss)).
      split; [reflexivity | ]. split; [left; reflexivity | ].
      cbn [RW sector_part track_type sector_size].
      repeat split; try reflexivity; try assumption.
      * destruct (Z.eqb_spec sp CD_READ_DEFAULT); [discriminate | assumption].
      * destruct (Z.eqb_spec ss (-1)); [discriminate | assumption].
      * destruct w; simpl; lia.
Qed.

Lemma change_datatype_resolves_all_witness :
  gate_held world0 = false /\
  exists pre p,
    trace (snd (run fw_xa (cdrom_change_datatype CD_READ_DEFAULT
                             CD_TRACK_TYPE_DEFAULT (-1)) world0)) =
      [] ++ MutexLock :: pre ++ [SectorMode p; MutexUnlock] /\
    sector_size p <> -1.
Proof.
  split; [reflexivity | ].
  destruct (change_datatype_resolves_all fw_xa world0 CD_READ_DEFAULT
              CD_TRACK_TYPE_DEFAULT (-1) eq_refl)
    as (pre & p & Htr & _ & _ & _ & _ & Hs & _).
  exists pre, p. split; [exact Htr | exact Hs].
Defined.

(** X11.  A fully specified triple goes through untouched.  When none of
    the three arguments is -1, [cdrom_change_datatype] asks the drive
    nothing and passes exactly (set, sector_part, track_type, sector_size) to
    the set-mode syscall, for 2352 as for any other size, and returns the
    syscall's answer. *)
Theorem change_datatype_explicit (fw : firmware) (w : world) (sp ty ss : Z) :
  gate_held w = false ->
  sp <> CD_READ_DEFAULT ->
  ty <> CD_TRACK_TYPE_DEFAULT ->
  ss <> -1 ->
  run fw (cdrom_change_datatype sp ty ss) w =
  (Done (fw_sector_mode fw (n_mode w)),
   bump w false 0 0 0 0 0 1
        [MutexLock; SectorMode (mk_sec_mode 0 sp ty ss); MutexUnlock]).
Proof.
  intros Hg Hsp Hty Hss. rewrite (run_change_datatype fw _ _ _ _ Hg).
  unfold change_datatype_events, queries_drive, resolve_sector_mode.
  apply Z.eqb_neq in Hsp, Hty, Hss. rewrite Hsp, Hty, Hss.
  rewrite andb_false_r.
  destruct (ss =? 2352); reflexivity.
Qed.

Lemma change_datatype_explicit_witness :
  gate_held world0 = false /\
  CD_READ_DATA_AREA <> CD_READ_DEFAULT /\
  CD_TRACK_TYPE_MODE2_FORM1 <> CD_TRACK_TYPE_DEFAULT /\
  2048 <> -1 /\
  run fw_xa (cdrom_change_datatype CD_READ_DATA_AREA CD_TRACK_TYPE_MODE2_FORM1 2048)
      world0 =
  (Done 0,
   bump world0 false 0 0 0 0 0 1
        [MutexLock;
         SectorMode (mk_sec_mode 0 CD_READ_DATA_AREA CD_TRACK_TYPE_MODE2_FORM1 2048);
         MutexUnlock]).
Proof.
  split; [reflexivity | ]. split; [discriminate | ]. split; [discriminate | ].
  split; [discriminate | ].
  apply (change_datatype_explicit fw_xa world0); try reflexivity; discriminate.
Defined.

(** ** Re-initialisation: one cycle, then the sector format *)

Lemma run_exec_done_gate (fw : firmware) (w w1 : world) (fuel : nat)
      (cmd : Z) (param : cmd_param) (T r : Z) :
  gate_held w = false ->
  run fw (cdrom_exec_cmd_timed fuel cmd param T) w = (Done r, w1) ->
  gate_held w1 = false.
Proof.
  intros Hg. rewrite (run_exec_cmd_timed fw _ _ _ _ _ Hg). cbv zeta.
  destruct (submit_id fw (n_send w) CD_CMD_RETRY_MAX 0 <=? 0).
  - intros H. inversion H. reflexivity.
  - match goal with |- context [run fw (poll_loop fuel ?i ?s T ?b) ?w2] =>
      destruct (run fw (poll_loop fuel i s T b) w2) as [[[n | ret] | | ] w3]
    end; intros H; inversion H; reflexivity.
Qed.

(* The loop of cdrom_reinit_ex goes round once. *)
Lemma run_reinit_ex_real (fw : firmware) (w : world) (fuel pfuel : nat)
      (sp ty ss : Z) :
  gate_held w = false ->
  run fw (cdrom_reinit_ex (S fuel) pfuel sp ty ss) w =
  match run fw (cdrom_exec_cmd_timed pfuel CMD_INIT PNull 10000) w with
  | (Done r, w1) =>
      if (r =? CD_ERR_SYS) || (r =? CD_ERR_TIMEOUT) then (Done r, w1)
      else as_cd_cmd_ret (run fw (cdrom_change_datatype sp ty ss) w1)
  | (Fuel, w1) => (Fuel, w1)
  | (Blocked, w1) => (Blocked, w1)
  end.
Proof.
  intros Hg. unfold cdrom_reinit_ex.
  rewrite run_bind. cbn [reinit_loop]. rewrite run_bind.
  destruct (run fw (cdrom_exec_cmd_timed pfuel CMD_INIT PNull 10000) w)
    as [[r | | ] w1] eqn:E; try reflexivity.
  pose proof (exec_cmd_timed_outcomes fw w pfuel CMD_INIT PNull 10000 r Hg) as Hr.
  rewrite E in Hr. specialize (Hr eq_refl).
  destruct Hr as [-> | [-> | [-> | ->]]]; cbv zeta;
    change (int_of_cd_cmd_ret CD_ERR_OK) with CD_ERR_OK;
    change (int_of_cd_cmd_ret CD_ERR_NO_ACTIVE) with CD_ERR_NO_ACTIVE;
    change (int_of_cd_cmd_ret CD_ERR_SYS) with CD_ERR_SYS;
    change (int_of_cd_cmd_ret CD_ERR_TIMEOUT) with CD_ERR_TIMEOUT;
    cbn [Z.eqb CD_ERR_OK CD_ERR_NO_ACTIVE CD_ERR_SYS CD_ERR_TIMEOUT
         CD_ERR_DISC_CHG CD_ERR_NO_DISC Pos.eqb orb run];
    try reflexivity;
    rewrite run_bind;
    destruct (run fw (cdrom_change_datatype sp ty ss) w1) as [[v | | ] w2];
    reflexivity.
Qed.

(** X12.  With [cdrom_exec_cmd_timed] as it is, [cdrom_reinit_ex] runs the
    initialise cycle exactly once, however many retries it is allowed: the
    cycle cannot return [CD_ERR_DISC_CHG].  A system-error or timeout of the
    cycle is returned as it is, with no set-mode call; after ok and also after
    no-active the call goes on to [cdrom_change_datatype] with the caller's
    parameters and returns its int result converted to [cd_cmd_ret_t], that
    is, modulo 2^32; while the cycle has not returned, neither has the
    call. *)
Theorem reinit_ex_single_cycle (fw : firmware) (w : world) (fuel pfuel : nat)
        (sp ty ss : Z) :
  gate_held w = false ->
  (1 <= fuel)%nat ->
  run fw (cdrom_reinit_ex fuel pfuel sp ty ss) w =
  match run fw (cdrom_exec_cmd_timed pfuel CMD_INIT PNull 10000) w with
  | (Done r, w1) =>
      if (r =? CD_ERR_SYS) || (r =? CD_ERR_TIMEOUT) then (Done r, w1)
      else as_cd_cmd_ret (run fw (cdrom_change_datatype sp ty ss) w1)
  | (Fuel, w1) => (Fuel, w1)
  | (Blocked, w1) => (Blocked, w1)
  end.
Proof.
  intros Hg Hf. destruct fuel as [ | fuel]; [lia | ].
  apply run_reinit_ex_real, Hg.
Qed.

(* The initialise command completes and the set-mode syscall fails with
   -1: the call returns 4294967295. *)
Lemma reinit_ex_single_cycle_witness :
  gate_held world0 = false /\ (1 <= 3)%nat /\
  fst (run fw_set_mode_fails
           (cdrom_reinit_ex 3 2 CD_READ_DEFAULT CD_TRACK_TYPE_DEFAULT (-1)) world0)
    = Done 4294967295.
Proof.
  split; [reflexivity | ]. split; [lia | ].
  rewrite (reinit_ex_single_cycle fw_set_mode_fails world0 3 2
             CD_READ_DEFAULT CD_TRACK_TYPE_DEFAULT (-1) eq_refl ltac:(lia)).
  vm_compute. reflexivity.
Defined.

(** X13.  [cdrom_set_sector_size] and [cdrom_reinit] after an initialise
    cycle that returned ok or no-active.  For a size below 2^31:
    [cdrom_set_sector_size(2352)] sets (whole sector, any, 2352) without
    asking the drive; any other size asks the drive once and sets (data area,
    mode 1, size).  [cdrom_reinit] sets (data area, mode 1, 2048).  Each
    returns the answer of the set-mode syscall converted to [cd_cmd_ret_t],
    that is, modulo 2^32: 0 stays 0 and the failure value -1 comes back as
    4294967295. *)
Theorem set_sector_size_after_init (fw : firmware) (w w1 : world)
        (fuel pfuel : nat) (size r : Z) :
  gate_held w = false ->
  (1 <= fuel)%nat ->
  0 <= size < 2 ^ 31 ->
  run fw (cdrom_exec_cmd_timed pfuel CMD_INIT PNull 10000) w = (Done r, w1) ->
  r = CD_ERR_OK \/ r = CD_ERR_NO_ACTIVE ->
  run fw (cdrom_set_sector_size fuel pfuel size) w =
    (Done (fw_sector_mode fw (n_mode w1) mod 2 ^ 32),
     if size =? 2352 then
       bump w1 false 0 0 0 0 0 1
            [MutexLock;
             SectorMode (mk_sec_mode 0 CD_READ_WHOLE_SECTOR CD_TRACK_TYPE_ANY 2352);
             MutexUnlock]
     else
       bump w1 false 0 0 0 0 1 1
            [MutexLock; CheckDrive (mk_check_drive 0 0);
             SectorMode (mk_sec_mode 0 CD_READ_DATA_AREA CD_TRACK_TYPE_MODE1 size);
             MutexUnlock]) /\
  run fw (cdrom_reinit fuel pfuel) w =
    (Done (fw_sector_mode fw (n_mode w1) mod 2 ^ 32),
     bump w1 false 0 0 0 0 1 1
          [MutexLock; CheckDrive (mk_check_drive 0 0);
           SectorMode (mk_sec_mode 0 CD_READ_DATA_AREA CD_TRACK_TYPE_MODE1 2048);
           MutexUnlock]).
Proof.
  intros Hg Hf Hsize Hrun Hr.
  pose proof (run_exec_done_gate fw w w1 pfuel CMD_INIT PNull 10000 r Hg Hrun) as Hg1.
  destruct fuel as [ | fuel]; [lia | ].
  unfold cdrom_set_sector_size, cdrom_reinit.
  rewrite !(run_reinit_ex_real fw w fuel pfuel) by exact Hg.
  rewrite Hrun.
  assert (Hcont : (r =? CD_ERR_SYS) || (r =? CD_ERR_TIMEOUT) = false)
    by (destruct Hr as [-> | ->]; reflexivity).
  rewrite Hcont, !(run_change_datatype fw _ _ _ _ Hg1).
  assert (Hint : int_of_size_t size = size).
  { unfold int_of_size_t. destruct (Z.ltb_spec size (2 ^ 31)); [reflexivity | lia]. }
  rewrite Hint. unfold as_cd_cmd_ret, to_cd_cmd_ret. split; [ | reflexivity].
  unfold change_datatype_events, queries_drive, resolve_sector_mode.
  destruct (Z.eqb_spec size 2352) as [-> | Hne]; [reflexivity | ].
  assert (Hm1 : (size =? -1) = false) by (apply Z.eqb_neq; lia).
  rewrite Hm1. reflexivity.
Qed.

(* A set-mode syscall that fails with -1 after a completed initialise
   command. *)
Lemma set_sector_size_after_init_witness :
  gate_held world0 = false /\ (1 <= 1)%nat /\ 0 <= 2048 < 2 ^ 31 /\
  fst (run fw_set_mode_fails (cdrom_set_sector_size 1 1 2048) world0)
    = Done 4294967295 /\
  n_drive (snd (run fw_set_mode_fails (cdrom_set_sector_size 1 1 2048) world0))
    = 1%nat.
Proof.
  split; [reflexivity | ]. split; [lia | ]. split; [lia | ].
  destruct (set_sector_size_after_init fw_set_mode_fails world0
              (snd (run fw_set_mode_fails
                        (cdrom_exec_cmd_timed 1 CMD_INIT PNull 10000) world0))
              1 1 2048 CD_ERR_OK eq_refl ltac:(lia) ltac:(lia)
              ltac:(vm_compute; reflexivity) (or_introl eq_refl)) as [H _].
  rewrite H. vm_compute. split; reflexivity.
Defined.

(** ** The wrappers around [cdrom_exec_cmd] *)

(** X14.  [cdrom_read_sectors_ex] picks the command by the mode:
    [CMD_DMAREAD] for [CDROM_READ_DMA], [CMD_PIOREAD] for [CDROM_READ_PIO].
    Every send of the call carries the block (sector, cnt, buffer, test mode
    off), so the test flag is never set; [cdrom_read_sectors] is the PIO
    case. *)
Theorem read_sectors_ex_dispatch (fw : firmware) (w : world) (fuel : nat)
        (buffer sector cnt mode : Z) :
  gate_held w = false ->
  mode = CDROM_READ_DMA \/ mode = CDROM_READ_PIO ->
  let block := read_params sector cnt buffer 0 in
  let cmd := if mode =? CDROM_READ_DMA then CMD_DMAREAD else CMD_PIOREAD in
  (exists rest,
      trace (snd (run fw (cdrom_read_sectors_ex fuel buffer sector cnt mode) w)) =
        trace w ++ MutexLock :: SendCommand cmd block :: rest /\
      Forall (fun o => is_send o = true -> o = SendCommand cmd block) rest) /\
  cdrom_read_sectors fuel buffer sector cnt =
    cdrom_exec_cmd fuel CMD_PIOREAD block.
Proof.
  intros Hg Hmode block cmd. subst block cmd. split; [ | reflexivity].
  unfold cdrom_read_sectors_ex, cdrom_exec_cmd.
  destruct Hmode as [-> | ->]; cbn [Z.eqb CDROM_READ_DMA CDROM_READ_PIO Pos.eqb];
    apply exec_sends_only, Hg.
Qed.

Lemma read_sectors_ex_dispatch_witness :
  gate_held world0 = false /\
  (CDROM_READ_DMA = CDROM_READ_DMA \/ CDROM_READ_DMA = CDROM_READ_PIO) /\
  exists rest,
    trace (snd (run fw_xa (cdrom_read_sectors_ex 2 4096 150 8 CDROM_READ_DMA) world0)) =
      MutexLock :: SendCommand CMD_DMAREAD (PWords [150; 8; 4096; 0]) :: rest.
Proof.
  split; [reflexivity | ]. split; [left; reflexivity | ].
  destruct (read_sectors_ex_dispatch fw_xa world0 2 4096 150 8 CDROM_READ_DMA
              eq_refl (or_introl eq_refl)) as [(rest & Htr & _) _].
  exists rest. exact Htr.
Defined.

(** X15.  An invalid mode is rejected before anything happens.  For a mode
    other than its two valid ones, [cdrom_read_sectors_ex] and
    [cdrom_cdda_play] return [CD_ERR_SYS] at once: no call is made, the gate
    is not touched, and so the call returns even while the gate is held. *)
Theorem invalid_mode_rejected (fw : firmware) (w : world) (fuel : nat)
        (a b c mode : Z) :
  mode <> 0 -> mode <> 1 ->
  run fw (cdrom_read_sectors_ex fuel a b c mode) w = (Done CD_ERR_SYS, w) /\
  run fw (cdrom_cdda_play fuel a b c mode) w = (Done CD_ERR_SYS, w).
Proof.
  intros H0 H1. unfold cdrom_read_sectors_ex, cdrom_cdda_play.
  unfold CDROM_READ_DMA, CDROM_READ_PIO, CDDA_TRACKS, CDDA_SECTORS.
  apply Z.eqb_neq in H0, H1. rewrite H0, H1. split; reflexivity.
Qed.

Lemma invalid_mode_rejected_witness :
  2 <> 0 /\ 2 <> 1 /\
  run fw_xa (cdrom_cdda_play 3 1 2 0 2) (set_gate true world0)
    = (Done CD_ERR_SYS, set_gate true world0).
Proof.
  split; [discriminate | ]. split; [discriminate | ].
  exact (proj2 (invalid_mode_rejected fw_xa (set_gate true world0) 3 1 2 0 2
                  ltac:(discriminate) ltac:(discriminate))).
Defined.

(* Without a budget the poll loop reads no clock and makes no abort. *)
Lemma poll_loop_untimed_quiet (fw : firmware) (fuel : nat) (id : Z)
      (st : cd_cmd_chk_status) (begin : Z) (w : world) :
  exists res c evs,
    run fw (poll_loop fuel id st 0 begin) w =
    (res, bump w (gate_held w) 0 c 0 0 0 0 evs) /\
    forall r, res <> Done (inr r).
Proof.
  revert w; induction fuel as [ | fuel IH]; intros w.
  - exists Fuel, O, []. simpl. rewrite bump_nil. split; [reflexivity | discriminate].
  - cbn [poll_loop bind call run respond].
    replace (n_check (log ExecServer w)) with (n_check w) by reflexivity.
    destruct (fw_check fw (n_check w)) as [n s].
    destruct (negb (n =? CD_CMD_PROCESSING) && negb (n =? CD_CMD_BUSY)).
    + exists (Done (inl n)), 1%nat, [ExecServer; CheckCommand id st].
      cbn [run]. split; [destruct w; world_eq | discriminate].
    + cbn [Z.eqb negb bind call run respond].
      match goal with |- context [run fw (poll_loop fuel id st 0 begin) ?w'] =>
        destruct (IH w') as (res & c & evs & Hrun & Hr)
      end.
      rewrite Hrun.
      exists res, (S c), ([ExecServer; CheckCommand id st; ThdPass] ++ evs).
      split; [destruct w; world_eq | exact Hr].
Qed.

Lemma exec_cmd_quiet (fw : firmware) (w : world) (fuel : nat) (cmd : Z)
      (param : cmd_param) :
  gate_held w = false ->
  let r := run fw (cdrom_exec_cmd fuel cmd param) w in
  fst r <> Done CD_ERR_TIMEOUT /\
  n_abort (snd r) = n_abort w /\
  n_clock (snd r) = n_clock w.
Proof.
  intros Hg r. subst r. unfold cdrom_exec_cmd.
  rewrite (run_exec_cmd_timed fw _ _ _ _ _ Hg). cbv zeta.
  destruct (submit_id fw (n_send w) CD_CMD_RETRY_MAX 0 <=? 0).
  - split; [discriminate | ]. unfold after_submit; destruct w; simpl. lia.
  - cbn [Z.eqb negb].
    match goal with |- context [run fw (poll_loop fuel ?i ?s 0 ?b) ?w2] =>
      destruct (poll_loop_untimed_quiet fw fuel i s b w2)
        as (res & c & evs & Hrun & Hr); rewrite Hrun
    end.
    destruct res as [[n | ret] | | ]; cbn [fst snd].
    + split.
      * rewrite classify_zero_status.
        destruct ((n =? CD_CMD_COMPLETED) || (n =? CD_CMD_STREAMING));
          [discriminate | ].
        destruct (n =? CD_CMD_NOT_FOUND); discriminate.
      * unfold after_submit; destruct w; simpl. lia.
    + exfalso. apply (Hr ret). reflexivity.
    + split; [discriminate | ]. unfold after_submit; destruct w; simpl. lia.
    + split; [discriminate | ]. unfold after_submit; destruct w; simpl. lia.
Qed.

(** X16.  The entry points that go through [cdrom_exec_cmd], that is
    [cdrom_read_toc], [cdrom_read_sectors_ex], [cdrom_get_subcode],
    [cdrom_cdda_play], [cdrom_cdda_pause], [cdrom_cdda_resume],
    [cdrom_spin_down] and [cdrom_exec_cmd] itself, wait for the drive without
    a bound: they never read the clock, never call
    [syscall_gdrom_abort_command] and never return [CD_ERR_TIMEOUT]. *)
Theorem untimed_calls_never_time_out (fw : firmware) (w : world) (d : driver_call) :
  untimed d ->
  gate_held w = false ->
  let r := run fw (driver_prog d) w in
  fst r <> Done CD_ERR_TIMEOUT /\
  n_abort (snd r) = n_abort w /\
  n_clock (snd r) = n_clock w.
Proof.
  intros Hu Hg.
  assert (Hret : let r := run fw (Ret CD_ERR_SYS) w in
                 fst r <> Done CD_ERR_TIMEOUT /\
                 n_abort (snd r) = n_abort w /\ n_clock (snd r) = n_clock w)
    by (simpl; repeat split; discriminate).
  destruct d; simpl in Hu; try contradiction; cbn [driver_prog].
  - subst timeout. apply (exec_cmd_quiet fw w fuel cmd param Hg).
  - apply exec_cmd_quiet, Hg.
  - unfold cdrom_read_sectors_ex.
    destruct (mode =? CDROM_READ_DMA); [apply exec_cmd_quiet, Hg | ].
    destruct (mode =? CDROM_READ_PIO); [apply exec_cmd_quiet, Hg | exact Hret].
  - apply exec_cmd_quiet, Hg.
  - unfold cdrom_cdda_play.
    destruct (mode =? CDDA_TRACKS); [apply exec_cmd_quiet, Hg | ].
    destruct (mode =? CDDA_SECTORS); [apply exec_cmd_quiet, Hg | exact Hret].
  - apply exec_cmd_quiet, Hg.
  - apply exec_cmd_quiet, Hg.
  - apply exec_cmd_quiet, Hg.
Qed.

Lemma untimed_calls_never_time_out_witness :
  untimed (CallSpinDown 4) /\
  gate_held world0 = false /\
  fst (run fw_stalled (driver_prog (CallSpinDown 4)) world0) <> Done CD_ERR_TIMEOUT /\
  n_clock (snd (run fw_stalled (driver_prog (CallSpinDown 4)) world0)) = O.
Proof.
  split; [exact I | ]. split; [reflexivity | ].
  destruct (untimed_calls_never_time_out fw_stalled world0 (CallSpinDown 4) I eq_refl)
    as (H1 & _ & H3).
  split; [exact H1 | exact H3].
Defined.

(** ** The gate discipline of every entry point *)

Lemma bracketed_bind {A B} (p : prog A) (f : A -> prog B) (held : bool) :
  bracketed held p ->
  (forall a, bracketed false (f a)) ->
  bracketed held (bind p f).
Proof.
  intros Hp Hf. revert held Hp.
  induction p as [a | o k IH | ]; intros held Hp; simpl in *.
  - subst held. apply Hf.
  - destruct (is_drive_op o).
    + destruct Hp as [Hh Hk]. split; [exact Hh | intros r; apply IH, Hk].
    + destruct o; destruct Hp as [Hh Hk];
        (split; [exact Hh | intros r; apply IH, Hk]).
  - exact I.
Qed.

Lemma bracketed_section {A B} (body : prog A) (f : A -> prog B) :
  lock_free body ->
  (forall a, bracketed true (f a)) ->
  bracketed true (bind body f).
Proof.
  intros Hb Hf. induction body as [a | o k IH | ]; simpl in *.
  - apply Hf.
  - destruct Hb as [Ho Hk]. rewrite Ho.
    split; [reflexivity | intros r; apply IH, Hk].
  - exact I.
Qed.

Lemma bracketed_scoped {A} (body : prog A) :
  lock_free body -> bracketed false (mutex_lock_scoped body).
Proof.
  intros Hb. unfold mutex_lock_scoped. simpl.
  split; [reflexivity | intros _].
  apply bracketed_section; [exact Hb | ].
  intros a. simpl. split; [reflexivity | intros _; reflexivity].
Qed.

Lemma bracketed_exec_cmd_timed fuel cmd param T :
  bracketed false (cdrom_exec_cmd_timed fuel cmd param T).
Proof.
  unfold cdrom_exec_cmd_timed. apply bracketed_scoped.
  apply lock_free_bind; [apply lock_free_submit_loop | intros id].
  destruct (id <=? 0); [exact I | ].
  apply lock_free_bind.
  - destruct (negb (T =? 0)); [apply lock_free_call; reflexivity | exact I].
  - intros begin. apply lock_free_bind; [apply lock_free_poll_loop | ].
    intros [n | ret]; exact I.
Qed.

Lemma lock_free_check_drive_loop fuel params :
  lock_free (check_drive_loop fuel params).
Proof.
  induction fuel as [ | fuel IH]; cbn [check_drive_loop]; [exact I | ].
  apply lock_free_bind; [apply lock_free_call; reflexivity | intros [rv p]].
  destruct (negb (rv =? CD_CMD_BUSY)); [exact I | ].
  apply lock_free_bind; [apply lock_free_call; reflexivity | intros _].
  apply IH.
Qed.

Lemma bracketed_change_datatype sp ty ss :
  bracketed false (cdrom_change_datatype sp ty ss).
Proof.
  unfold cdrom_change_datatype. apply bracketed_scoped.
  apply lock_free_bind.
  - destruct (ss =? 2352); [exact I | ].
    apply lock_free_bind; [ | intros t; exact I].
    destruct (ty =? CD_TRACK_TYPE_DEFAULT); [ | exact I].
    apply lock_free_bind; [apply lock_free_call; reflexivity | intros _].
    destruct (disc_type (mk_check_drive 0 0) =? CD_CDROM_XA); exact I.
  - intros [[a b] c]. apply lock_free_call. reflexivity.
Qed.

Lemma bracketed_get_status fuel s d :
  bracketed false (x <- cdrom_get_status fuel s d ;; Ret (fst (fst x))).
Proof.
  apply bracketed_bind; [ | intros a; reflexivity].
  unfold cdrom_get_status. simpl. split; [reflexivity | intros lk].
  destruct (lk =? 0); cbn [negb]; [ | reflexivity].
  apply bracketed_section; [apply lock_free_check_drive_loop | intros rv].
  simpl. split; [reflexivity | intros _].
  destruct (rv >=? 0); reflexivity.
Qed.

Lemma bracketed_reinit_ex fuel pfuel sp ty ss :
  bracketed false (cdrom_reinit_ex fuel pfuel sp ty ss).
Proof.
  unfold cdrom_reinit_ex.
  apply bracketed_bind.
  - induction fuel as [ | fuel IH]; cbn [reinit_loop]; [exact I | ].
    apply bracketed_bind; [apply bracketed_exec_cmd_timed | intros r].
    cbv zeta.
    destruct (int_of_cd_cmd_ret r =? CD_ERR_DISC_CHG); [exact IH | reflexivity].
  - intros r.
    destruct ((r =? CD_ERR_NO_DISC) || (r =? CD_ERR_SYS) || (r =? CD_ERR_TIMEOUT));
      [reflexivity | ].
    apply bracketed_bind; [apply bracketed_change_datatype | intros v; reflexivity].
Qed.

Lemma bracketed_driver_prog (d : driver_call) : bracketed false (driver_prog d).
Proof.
  destruct d; cbn [driver_prog];
    unfold cdrom_set_sector_size, cdrom_read_toc, cdrom_get_subcode,
      cdrom_cdda_pause, cdrom_cdda_resume, cdrom_spin_down,
      cdrom_read_sectors_ex, cdrom_cdda_play, cdrom_exec_cmd.
  - apply bracketed_exec_cmd_timed.
  - apply bracketed_get_status.
  - apply bracketed_change_datatype.
  - apply bracketed_reinit_ex.
  - apply bracketed_reinit_ex.
  - apply bracketed_exec_cmd_timed.
  - destruct (mode =? CDROM_READ_DMA); [apply bracketed_exec_cmd_timed | ].
    destruct (mode =? CDROM_READ_PIO); [apply bracketed_exec_cmd_timed | reflexivity].
  - apply bracketed_exec_cmd_timed.
  - destruct (mode =? CDDA_TRACKS); [apply bracketed_exec_cmd_timed | ].
    destruct (mode =? CDDA_SECTORS); [apply bracketed_exec_cmd_timed | reflexivity].
  - apply bracketed_exec_cmd_timed.
  - apply bracketed_exec_cmd_timed.
  - apply bracketed_exec_cmd_timed.
Qed.

Lemma holds_true_iff {A} (c : conf A) (t : tid) :
  holds c t = true <-> holder c = Some t.
Proof.
  unfold holds. destruct (holder c) as [t' | ]; [ | split; discriminate].
  rewrite tid_eqb_eq. split; congruence.
Qed.

(* One step keeps the discipline, and a call to the drive is made by the
   holder of the gate. *)
Lemma gate_discipline_step {A} (c c' : conf A) (t : tid) (o : op) :
  gate_discipline c ->
  cstep c (t, o) c' ->
  gate_discipline c' /\ (is_drive_op o = true -> holder c = Some t).
Proof.
  intros Hd Hs.
  inversion Hs as [h h' ths t0 o0 k r Hth Hg]; subst.
  pose proof (Hd t) as Ht. simpl in Ht. rewrite Hth in Ht. simpl in Ht.
  assert (Hrest : forall hh, (forall t', tid_eqb t' t = false ->
                     holds (mk_conf hh (set_thread ths t (k r))) t'
                     = holds (mk_conf h ths) t') ->
                  bracketed (holds (mk_conf hh (set_thread ths t (k r))) t) (k r) ->
                  gate_discipline (mk_conf hh (set_thread ths t (k r)))).
  { intros hh Hsame Hme t'. cbn [thread_of].
    assert (Hth' : set_thread ths t (k r) t' = if tid_eqb t' t then k r else ths t')
      by reflexivity.
    rewrite Hth'. destruct (tid_eqb t' t) eqn:E.
    - apply tid_eqb_eq in E; subst t'. exact Hme.
    - rewrite (Hsame t' E). apply (Hd t'). }
  destruct (is_drive_op o) eqn:Ho.
  - destruct Ht as [Hh Hk].
    assert (h' = h) as -> by (destruct o; try discriminate; exact Hg).
    split; [ | intros _; apply holds_true_iff in Hh; exact Hh].
    apply Hrest; [intros; reflexivity | ].
    change (holds (mk_conf h (set_thread ths t (k r))) t)
      with (holds (mk_conf h ths) t).
    rewrite Hh. apply Hk.
  - split; [ | discriminate].
    destruct o; try discriminate; simpl in Hg, Ht; destruct Ht as [Hh Hk].
    + (* mutex_lock *)
      destruct Hg as [-> ->]. apply Hrest.
      * intros t' E. unfold holds; simpl.
        rewrite tid_eqb_sym. exact E.
      * unfold holds; simpl. rewrite tid_eqb_refl. apply Hk.
    + (* mutex_lock_irqsafe *)
      destruct Hg as [(-> & -> & ->) | (Hne & Hr & ->)].
      * apply Hrest.
        -- intros t' E. unfold holds; simpl. rewrite tid_eqb_sym. exact E.
        -- unfold holds; simpl. rewrite tid_eqb_refl. apply (Hk 0).
      * apply Hrest; [intros; reflexivity | ].
        change (holds (mk_conf h (set_thread ths t (k r))) t)
          with (holds (mk_conf h ths) t).
        rewrite Hh. specialize (Hk r).
        apply Z.eqb_neq in Hr. rewrite Hr in Hk. exact Hk.
    + (* mutex_unlock *)
      destruct Hg as [-> ->]. apply Hrest.
      * intros t' E. unfold holds; simpl. rewrite tid_eqb_sym. symmetry. exact E.
      * unfold holds; simpl. apply Hk.
Qed.

Lemma gate_discipline_steps {A} (c c' : conf A) (l : list (tid * op)) :
  gate_discipline c -> csteps c l c' -> gate_discipline c'.
Proof.
  intros Hd Hs. induction Hs as [c | c [t o] c1 l c2 Hstep Hrest IH].
  - exact Hd.
  - apply IH. apply (gate_discipline_step c c1 t o Hd Hstep).
Qed.

(** X17.  Any two calls into the driver, of any of its entry points and
    with any arguments, interleaved in any way against any firmware: whenever
    one of the callers calls the firmware, the clock or the scheduler, it is
    the one that holds the gate; and a caller that has returned does not hold
    the gate.  The non-blocking acquire of [cdrom_get_status] that fails
    leads to its return without any call to the drive. *)
Theorem driver_calls_hold_gate (d1 d2 : driver_call)
        (l : list (tid * op)) (c : conf Z) :
  csteps (mk_conf None (two_callers (driver_prog d1) (driver_prog d2))) l c ->
  (forall t o c', cstep c (t, o) c' -> is_drive_op o = true -> holder c = Some t) /\
  (forall t a, thread_of c t = Ret a -> holder c <> Some t).
Proof.
  intros Hs.
  assert (Hd : gate_discipline c).
  { eapply gate_discipline_steps; [ | exact Hs].
    intros [ | ]; apply bracketed_driver_prog. }
  split.
  - intros t o c' Hstep. apply (gate_discipline_step c c' t o Hd Hstep).
  - intros t a Hret Hh. specialize (Hd t). rewrite Hret in Hd. simpl in Hd.
    apply holds_true_iff in Hh. congruence.
Qed.

(* While a read holds the gate, a status query fails its non-blocking
   acquire and returns -1; the gate stays with the reader. *)
Lemma driver_calls_hold_gate_witness :
  exists c,
    csteps (mk_conf None
              (two_callers (driver_prog (CallReadSectorsEx 1 4096 150 8 CDROM_READ_PIO))
                           (driver_prog (CallGetStatus 1 (Some 0) None))))
           [(T1, MutexLock); (T2, MutexLockIrqsafe)] c /\
    thread_of c T2 = Ret (-1) /\
    holder c <> Some T2.
Proof.
  assert (Hrun : exists c,
    csteps (mk_conf None
              (two_callers (driver_prog (CallReadSectorsEx 1 4096 150 8 CDROM_READ_PIO))
                           (driver_prog (CallGetStatus 1 (Some 0) None))))
           [(T1, MutexLock); (T2, MutexLockIrqsafe)] c /\
    thread_of c T2 = Ret (-1)).
  { eexists. split.
    - eapply csteps_cons;
        [eapply (cstep_call _ _ _ T1 MutexLock _ tt);
         [reflexivity | split; reflexivity] | ].
      eapply csteps_cons;
        [eapply (cstep_call _ _ _ T2 MutexLockIrqsafe _ (-1));
         [reflexivity | right; repeat split; discriminate] | ].
      apply csteps_nil.
    - reflexivity. }
  destruct Hrun as (c & Hc & Hret). exists c.
  split; [exact Hc | ]. split; [exact Hret | ].
  exact (proj2 (driver_calls_hold_gate _ _ _ c Hc) T2 (-1) Hret).
Defined.
